(** * Shallow embedding of [app/routers/extract.py] (news-extract-api)

    Python [str] values are modelled as lists of Unicode code points
    ([list Z]); [len] is [length].  Character classes follow CPython's
    [str] methods and its [re] engine ([Py_UNICODE_ISSPACE] for [\s],
    [str.strip] and [str.rstrip]; the line boundaries of [str.splitlines]). *)

From Stdlib Require Import ZArith List Bool Lia String Ascii.
Import ListNotations.
Open Scope Z_scope.
#[local] Set Warnings "-abstract-large-number".

Definition text := list Z.

(** ASCII string literals of the source, as code points. *)
Definition s2z (s : string) : text :=
  map (fun a => Z.of_nat (nat_of_ascii a)) (list_ascii_of_string s).

Definition LF : Z := 10.
Definition CR : Z := 13.
Definition TAB : Z := 9.
Definition SPACE : Z := 32.

(** [Py_UNICODE_ISSPACE]: the characters of [\s], [str.strip] and
    [str.rstrip]. *)
Definition py_isspace (c : Z) : bool :=
  ((9 <=? c) && (c <=? 13)) || ((28 <=? c) && (c <=? 32)) ||
  (c =? 133) || (c =? 160) || (c =? 5760) ||
  ((8192 <=? c) && (c <=? 8202)) || (c =? 8232) || (c =? 8233) ||
  (c =? 8239) || (c =? 8287) || (c =? 12288).

(** The line boundaries of [str.splitlines] ([\r\n] is handled apart). *)
Definition py_is_linebreak (c : Z) : bool :=
  (c =? 10) || (c =? 11) || (c =? 12) || (c =? 13) || (c =? 28) ||
  (c =? 29) || (c =? 30) || (c =? 133) || (c =? 8232) || (c =? 8233).

(** ** normalize_newlines *)

(** [s.replace("\r\n", "\n")] *)
Fixpoint replace_crlf (s : text) : text :=
  match s with
  | [] => []
  | c :: s' =>
      if c =? CR then
        match s' with
        | d :: s'' => if d =? LF then LF :: replace_crlf s'' else c :: replace_crlf s'
        | [] => [c]
        end
      else c :: replace_crlf s'
  end.

(** [s.replace(a, b)] for a one-character [a] and [b]. *)
Definition replace_char (a b : Z) (s : text) : text :=
  map (fun c => if c =? a then b else c) s.

Definition normalize_newlines (t : text) : text :=
  replace_char TAB SPACE (replace_char CR LF (replace_crlf t)).

(** ** str.splitlines, str.rstrip, "\n".join *)

(** [cur] is the current line, reversed. *)
Fixpoint splitlines_go (cur : text) (s : text) : list text :=
  match s with
  | [] => match cur with [] => [] | _ => [rev cur] end
  | c :: s' =>
      if c =? CR then
        match s' with
        | d :: s'' =>
            if d =? LF then rev cur :: splitlines_go [] s''
            else rev cur :: splitlines_go [] s'
        | [] => [rev cur]
        end
      else if py_is_linebreak c then rev cur :: splitlines_go [] s'
      else splitlines_go (c :: cur) s'
  end.

Definition py_splitlines (s : text) : list text := splitlines_go [] s.

Fixpoint lstrip_ws (s : text) : text :=
  match s with
  | [] => []
  | c :: s' => if py_isspace c then lstrip_ws s' else s
  end.

Definition rstrip (s : text) : text := rev (lstrip_ws (rev s)).

Definition py_strip (s : text) : text := rstrip (lstrip_ws s).

Fixpoint join_nl (l : list text) : text :=
  match l with
  | [] => []
  | [x] => x
  | x :: l' => x ++ LF :: join_nl l'
  end.

(** ** re.sub(r"\n{3,}", "\n\n", s)

    The scan keeps the number [n] of newlines read since the last other
    character; a maximal run of three or more newlines becomes two. *)
Definition nl_block (n : nat) : text :=
  if (3 <=? n)%nat then [LF; LF] else repeat LF n.

Fixpoint collapse_nl_aux (n : nat) (s : text) : text :=
  match s with
  | [] => nl_block n
  | c :: s' =>
      if c =? LF then collapse_nl_aux (S n) s'
      else nl_block n ++ c :: collapse_nl_aux 0 s'
  end.

Definition collapse_blank_lines (s : text) : text := collapse_nl_aux 0 s.

(** ** remove_noise_lines_safe_only, over the line test [is_noise]
    ([any(rx.match(line) for rx in SAFE_REGEXES)]). *)
Definition LONG_LINE : Z := 5000.

Fixpoint clean_lines (is_noise : text -> bool) (raws : list text) : list text :=
  match raws with
  | [] => []
  | raw :: raws' =>
      let line := rstrip raw in
      if LONG_LINE <? Z.of_nat (List.length line) then line :: clean_lines is_noise raws'
      else if is_noise line then clean_lines is_noise raws'
      else line :: clean_lines is_noise raws'
  end.

Definition remove_noise_lines_with (is_noise : text -> bool) (t : text) : text :=
  let t := normalize_newlines t in
  let cleaned_lines := clean_lines is_noise (py_splitlines t) in
  collapse_blank_lines (join_nl cleaned_lines).

(** ** collapse_newlines_to_spaces

    [re.sub(r"\s*\n\s*", " ", s)]: at a position inside a run of [\s]
    characters the greedy [\s*] backtracks to the last newline of the run
    and the second [\s*] takes the rest of it, so the attempt succeeds
    exactly when the rest of the run holds a newline, and the whole rest of
    the run is replaced.  Scanning left to right, the first attempt in a run
    is at its first character: a maximal run holding a newline becomes one
    space and any other run is copied.  [re.sub(r"\s{2,}", " ", s)] likewise
    replaces each maximal run of two or more [\s] characters.  [buf] is the
    current run, reversed. *)
Fixpoint sub_ws_runs (flush : text -> text) (buf : text) (s : text) : text :=
  match s with
  | [] => flush buf
  | c :: s' =>
      if py_isspace c then sub_ws_runs flush (c :: buf) s'
      else flush buf ++ c :: sub_ws_runs flush [] s'
  end.

Definition flush_nl_run (buf : text) : text :=
  if existsb (Z.eqb LF) buf then [SPACE] else rev buf.

Definition flush_long_run (buf : text) : text :=
  if (2 <=? List.length buf)%nat then [SPACE] else rev buf.

Definition collapse_newlines_to_spaces (s : text) : text :=
  let s := sub_ws_runs flush_nl_run [] s in
  py_strip (sub_ws_runs flush_long_run [] s).

(** ** SAFE_NOISE_PATTERNS and SAFE_REGEXES

    The characters of [\w] and [\b]: [str.isalnum()] or ['_'], as maximal
    code-point ranges of the Unicode database of CPython 3.11 (Unicode
    14.0). *)
Definition py_word_ranges : list (Z * Z) :=
  [(48, 57); (65, 90); (95, 95); (97, 122); (170, 170); (178, 179);
  (181, 181); (185, 186); (188, 190); (192, 214); (216, 246); (248, 705);
  (710, 721); (736, 740); (748, 748); (750, 750); (880, 884); (886, 887);
  (890, 893); (895, 895); (902, 902); (904, 906); (908, 908); (910, 929);
  (931, 1013); (1015, 1153); (1162, 1327); (1329, 1366); (1369, 1369);
  (1376, 1416); (1488, 1514); (1519, 1522); (1568, 1610); (1632, 1641);
  (1646, 1647); (1649, 1747); (1749, 1749); (1765, 1766); (1774, 1788);
  (1791, 1791); (1808, 1808); (1810, 1839); (1869, 1957); (1969, 1969);
  (1984, 2026); (2036, 2037); (2042, 2042); (2048, 2069); (2074, 2074);
  (2084, 2084); (2088, 2088); (2112, 2136); (2144, 2154); (2160, 2183);
  (2185, 2190); (2208, 2249); (2308, 2361); (2365, 2365); (2384, 2384);
  (2392, 2401); (2406, 2415); (2417, 2432); (2437, 2444); (2447, 2448);
  (2451, 2472); (2474, 2480); (2482, 2482); (2486, 2489); (2493, 2493);
  (2510, 2510); (2524, 2525); (2527, 2529); (2534, 2545); (2548, 2553);
  (2556, 2556); (2565, 2570); (2575, 2576); (2579, 2600); (2602, 2608);
  (2610, 2611); (2613, 2614); (2616, 2617); (2649, 2652); (2654, 2654);
  (2662, 2671); (2674, 2676); (2693, 2701); (2703, 2705); (2707, 2728);
  (2730, 2736); (2738, 2739); (2741, 2745); (2749, 2749); (2768, 2768);
  (2784, 2785); (2790, 2799); (2809, 2809); (2821, 2828); (2831, 2832);
  (2835, 2856); (2858, 2864); (2866, 2867); (2869, 2873); (2877, 2877);
  (2908, 2909); (2911, 2913); (2918, 2927); (2929, 2935); (2947, 2947);
  (2949, 2954); (2958, 2960); (2962, 2965); (2969, 2970); (2972, 2972);
  (2974, 2975); (2979, 2980); (2984, 2986); (2990, 3001); (3024, 3024);
  (3046, 3058); (3077, 3084); (3086, 3088); (3090, 3112); (3114, 3129);
  (3133, 3133); (3160, 3162); (3165, 3165); (3168, 3169); (3174, 3183);
  (3192, 3198); (3200, 3200); (3205, 3212); (3214, 3216); (3218, 3240);
  (3242, 3251); (3253, 3257); (3261, 3261); (3293, 3294); (3296, 3297);
  (3302, 3311); (3313, 3314); (3332, 3340); (3342, 3344); (3346, 3386);
  (3389, 3389); (3406, 3406); (3412, 3414); (3416, 3425); (3430, 3448);
  (3450, 3455); (3461, 3478); (3482, 3505); (3507, 3515); (3517, 3517);
  (3520, 3526); (3558, 3567); (3585, 3632); (3634, 3635); (3648, 3654);
  (3664, 3673); (3713, 3714); (3716, 3716); (3718, 3722); (3724, 3747);
  (3749, 3749); (3751, 3760); (3762, 3763); (3773, 3773); (3776, 3780);
  (3782, 3782); (3792, 3801); (3804, 3807); (3840, 3840); (3872, 3891);
  (3904, 3911); (3913, 3948); (3976, 3980); (4096, 4138); (4159, 4169);
  (4176, 4181); (4186, 4189); (4193, 4193); (4197, 4198); (4206, 4208);
  (4213, 4225); (4238, 4238); (4240, 4249); (4256, 4293); (4295, 4295);
  (4301, 4301); (4304, 4346); (4348, 4680); (4682, 4685); (4688, 4694);
  (4696, 4696); (4698, 4701); (4704, 4744); (4746, 4749); (4752, 4784);
  (4786, 4789); (4792, 4798); (4800, 4800); (4802, 4805); (4808, 4822);
  (4824, 4880); (4882, 4885); (4888, 4954); (4969, 4988); (4992, 5007);
  (5024, 5109); (5112, 5117); (5121, 5740); (5743, 5759); (5761, 5786);
  (5792, 5866); (5870, 5880); (5888, 5905); (5919, 5937); (5952, 5969);
  (5984, 5996); (5998, 6000); (6016, 6067); (6103, 6103); (6108, 6108);
  (6112, 6121); (6128, 6137); (6160, 6169); (6176, 6264); (6272, 6276);
  (6279, 6312); (6314, 6314); (6320, 6389); (6400, 6430); (6470, 6509);
  (6512, 6516); (6528, 6571); (6576, 6601); (6608, 6618); (6656, 6678);
  (6688, 6740); (6784, 6793); (6800, 6809); (6823, 6823); (6917, 6963);
  (6981, 6988); (6992, 7001); (7043, 7072); (7086, 7141); (7168, 7203);
  (7232, 7241); (7245, 7293); (7296, 7304); (7312, 7354); (7357, 7359);
  (7401, 7404); (7406, 7411); (7413, 7414); (7418, 7418); (7424, 7615);
  (7680, 7957); (7960, 7965); (7968, 8005); (8008, 8013); (8016, 8023);
  (8025, 8025); (8027, 8027); (8029, 8029); (8031, 8061); (8064, 8116);
  (8118, 8124); (8126, 8126); (8130, 8132); (8134, 8140); (8144, 8147);
  (8150, 8155); (8160, 8172); (8178, 8180); (8182, 8188); (8304, 8305);
  (8308, 8313); (8319, 8329); (8336, 8348); (8450, 8450); (8455, 8455);
  (8458, 8467); (8469, 8469); (8473, 8477); (8484, 8484); (8486, 8486);
  (8488, 8488); (8490, 8493); (8495, 8505); (8508, 8511); (8517, 8521);
  (8526, 8526); (8528, 8585); (9312, 9371); (9450, 9471); (10102, 10131);
  (11264, 11492); (11499, 11502); (11506, 11507); (11517, 11517);
  (11520, 11557); (11559, 11559); (11565, 11565); (11568, 11623);
  (11631, 11631); (11648, 11670); (11680, 11686); (11688, 11694);
  (11696, 11702); (11704, 11710); (11712, 11718); (11720, 11726);
  (11728, 11734); (11736, 11742); (11823, 11823); (12293, 12295);
  (12321, 12329); (12337, 12341); (12344, 12348); (12353, 12438);
  (12445, 12447); (12449, 12538); (12540, 12543); (12549, 12591);
  (12593, 12686); (12690, 12693); (12704, 12735); (12784, 12799);
  (12832, 12841); (12872, 12879); (12881, 12895); (12928, 12937);
  (12977, 12991); (13312, 19903); (19968, 42124); (42192, 42237);
  (42240, 42508); (42512, 42539); (42560, 42606); (42623, 42653);
  (42656, 42735); (42775, 42783); (42786, 42888); (42891, 42954);
  (42960, 42961); (42963, 42963); (42965, 42969); (42994, 43009);
  (43011, 43013); (43015, 43018); (43020, 43042); (43056, 43061);
  (43072, 43123); (43138, 43187); (43216, 43225); (43250, 43255);
  (43259, 43259); (43261, 43262); (43264, 43301); (43312, 43334);
  (43360, 43388); (43396, 43442); (43471, 43481); (43488, 43492);
  (43494, 43518); (43520, 43560); (43584, 43586); (43588, 43595);
  (43600, 43609); (43616, 43638); (43642, 43642); (43646, 43695);
  (43697, 43697); (43701, 43702); (43705, 43709); (43712, 43712);
  (43714, 43714); (43739, 43741); (43744, 43754); (43762, 43764);
  (43777, 43782); (43785, 43790); (43793, 43798); (43808, 43814);
  (43816, 43822); (43824, 43866); (43868, 43881); (43888, 44002);
  (44016, 44025); (44032, 55203); (55216, 55238); (55243, 55291);
  (63744, 64109); (64112, 64217); (64256, 64262); (64275, 64279);
  (64285, 64285); (64287, 64296); (64298, 64310); (64312, 64316);
  (64318, 64318); (64320, 64321); (64323, 64324); (64326, 64433);
  (64467, 64829); (64848, 64911); (64914, 64967); (65008, 65019);
  (65136, 65140); (65142, 65276); (65296, 65305); (65313, 65338);
  (65345, 65370); (65382, 65470); (65474, 65479); (65482, 65487);
  (65490, 65495); (65498, 65500); (65536, 65547); (65549, 65574);
  (65576, 65594); (65596, 65597); (65599, 65613); (65616, 65629);
  (65664, 65786); (65799, 65843); (65856, 65912); (65930, 65931);
  (66176, 66204); (66208, 66256); (66273, 66299); (66304, 66339);
  (66349, 66378); (66384, 66421); (66432, 66461); (66464, 66499);
  (66504, 66511); (66513, 66517); (66560, 66717); (66720, 66729);
  (66736, 66771); (66776, 66811); (66816, 66855); (66864, 66915);
  (66928, 66938); (66940, 66954); (66956, 66962); (66964, 66965);
  (66967, 66977); (66979, 66993); (66995, 67001); (67003, 67004);
  (67072, 67382); (67392, 67413); (67424, 67431); (67456, 67461);
  (67463, 67504); (67506, 67514); (67584, 67589); (67592, 67592);
  (67594, 67637); (67639, 67640); (67644, 67644); (67647, 67669);
  (67672, 67702); (67705, 67742); (67751, 67759); (67808, 67826);
  (67828, 67829); (67835, 67867); (67872, 67897); (67968, 68023);
  (68028, 68047); (68050, 68096); (68112, 68115); (68117, 68119);
  (68121, 68149); (68160, 68168); (68192, 68222); (68224, 68255);
  (68288, 68295); (68297, 68324); (68331, 68335); (68352, 68405);
  (68416, 68437); (68440, 68466); (68472, 68497); (68521, 68527);
  (68608, 68680); (68736, 68786); (68800, 68850); (68858, 68899);
  (68912, 68921); (69216, 69246); (69248, 69289); (69296, 69297);
  (69376, 69415); (69424, 69445); (69457, 69460); (69488, 69505);
  (69552, 69579); (69600, 69622); (69635, 69687); (69714, 69743);
  (69745, 69746); (69749, 69749); (69763, 69807); (69840, 69864);
  (69872, 69881); (69891, 69926); (69942, 69951); (69956, 69956);
  (69959, 69959); (69968, 70002); (70006, 70006); (70019, 70066);
  (70081, 70084); (70096, 70106); (70108, 70108); (70113, 70132);
  (70144, 70161); (70163, 70187); (70272, 70278); (70280, 70280);
  (70282, 70285); (70287, 70301); (70303, 70312); (70320, 70366);
  (70384, 70393); (70405, 70412); (70415, 70416); (70419, 70440);
  (70442, 70448); (70450, 70451); (70453, 70457); (70461, 70461);
  (70480, 70480); (70493, 70497); (70656, 70708); (70727, 70730);
  (70736, 70745); (70751, 70753); (70784, 70831); (70852, 70853);
  (70855, 70855); (70864, 70873); (71040, 71086); (71128, 71131);
  (71168, 71215); (71236, 71236); (71248, 71257); (71296, 71338);
  (71352, 71352); (71360, 71369); (71424, 71450); (71472, 71483);
  (71488, 71494); (71680, 71723); (71840, 71922); (71935, 71942);
  (71945, 71945); (71948, 71955); (71957, 71958); (71960, 71983);
  (71999, 71999); (72001, 72001); (72016, 72025); (72096, 72103);
  (72106, 72144); (72161, 72161); (72163, 72163); (72192, 72192);
  (72203, 72242); (72250, 72250); (72272, 72272); (72284, 72329);
  (72349, 72349); (72368, 72440); (72704, 72712); (72714, 72750);
  (72768, 72768); (72784, 72812); (72818, 72847); (72960, 72966);
  (72968, 72969); (72971, 73008); (73030, 73030); (73040, 73049);
  (73056, 73061); (73063, 73064); (73066, 73097); (73112, 73112);
  (73120, 73129); (73440, 73458); (73648, 73648); (73664, 73684);
  (73728, 74649); (74752, 74862); (74880, 75075); (77712, 77808);
  (77824, 78894); (82944, 83526); (92160, 92728); (92736, 92766);
  (92768, 92777); (92784, 92862); (92864, 92873); (92880, 92909);
  (92928, 92975); (92992, 92995); (93008, 93017); (93019, 93025);
  (93027, 93047); (93053, 93071); (93760, 93846); (93952, 94026);
  (94032, 94032); (94099, 94111); (94176, 94177); (94179, 94179);
  (94208, 100343); (100352, 101589); (101632, 101640); (110576, 110579);
  (110581, 110587); (110589, 110590); (110592, 110882); (110928, 110930);
  (110948, 110951); (110960, 111355); (113664, 113770); (113776, 113788);
  (113792, 113800); (113808, 113817); (119520, 119539); (119648, 119672);
  (119808, 119892); (119894, 119964); (119966, 119967); (119970, 119970);
  (119973, 119974); (119977, 119980); (119982, 119993); (119995, 119995);
  (119997, 120003); (120005, 120069); (120071, 120074); (120077, 120084);
  (120086, 120092); (120094, 120121); (120123, 120126); (120128, 120132);
  (120134, 120134); (120138, 120144); (120146, 120485); (120488, 120512);
  (120514, 120538); (120540, 120570); (120572, 120596); (120598, 120628);
  (120630, 120654); (120656, 120686); (120688, 120712); (120714, 120744);
  (120746, 120770); (120772, 120779); (120782, 120831); (122624, 122654);
  (123136, 123180); (123191, 123197); (123200, 123209); (123214, 123214);
  (123536, 123565); (123584, 123627); (123632, 123641); (124896, 124902);
  (124904, 124907); (124909, 124910); (124912, 124926); (124928, 125124);
  (125127, 125135); (125184, 125251); (125259, 125259); (125264, 125273);
  (126065, 126123); (126125, 126127); (126129, 126132); (126209, 126253);
  (126255, 126269); (126464, 126467); (126469, 126495); (126497, 126498);
  (126500, 126500); (126503, 126503); (126505, 126514); (126516, 126519);
  (126521, 126521); (126523, 126523); (126530, 126530); (126535, 126535);
  (126537, 126537); (126539, 126539); (126541, 126543); (126545, 126546);
  (126548, 126548); (126551, 126551); (126553, 126553); (126555, 126555);
  (126557, 126557); (126559, 126559); (126561, 126562); (126564, 126564);
  (126567, 126570); (126572, 126578); (126580, 126583); (126585, 126588);
  (126590, 126590); (126592, 126601); (126603, 126619); (126625, 126627);
  (126629, 126633); (126635, 126651); (127232, 127244); (130032, 130041);
  (131072, 173791); (173824, 177976); (177984, 178205); (178208, 183969);
  (183984, 191456); (194560, 195101); (196608, 201546)].

Definition py_isword (c : Z) : bool :=
  existsb (fun r => (fst r <=? c) && (c <=? snd r)) py_word_ranges.

(** The simple lowercase mapping used by [re.IGNORECASE]
    ([_sre.unicode_tolower]), on the characters whose lowercase is an ASCII
    letter: [A-Z], U+0130 and U+212A; it is the identity elsewhere, which
    changes none of the case-insensitive tests below (they compare the
    lowercase with an ASCII letter, U+0131, U+017F or a Hangul syllable,
    which no other character lowercases to). *)
Definition lower_sre (c : Z) : Z :=
  if (65 <=? c) && (c <=? 90) then c + 32
  else if c =? 304 then 105
  else if c =? 8490 then 107
  else c.

(** A pattern literal under [re.IGNORECASE]: equal lowercases, and the
    extra equivalences i ~ U+0131 and s ~ U+017F of [sre_compile]. *)
Definition lit_ci (c x : Z) : bool :=
  let lc := lower_sre c in
  (lower_sre x =? lc) || ((lc =? 105) && (x =? 305)) || ((lc =? 115) && (x =? 383)).

Inductive regex : Type :=
| REmpty
| RBol                        (* ^ *)
| REol                        (* $ *)
| RWordB                      (* \b *)
| RLit (c : Z)                (* a literal character, case-insensitive *)
| RClass (p : Z -> bool)      (* a character class *)
| RSeq (r1 r2 : regex)
| RAlt (r1 r2 : regex)
| RStar (r : regex).

Definition opt_word (c : option Z) : bool :=
  match c with Some x => py_isword x | None => false end.

(** Whether [r] matches a prefix of [s], given the preceding character
    [prev] ([None] at the start of the string), after which the
    continuation [k] succeeds.  Lazy and greedy quantifiers accept the same
    strings; an iteration of [*] that consumes nothing is skipped, which
    loses no match, so [length s + 1] rounds bound the loop. *)
Fixpoint rmatch (r : regex) (prev : option Z) (s : text)
  (k : option Z -> text -> bool) {struct r} : bool :=
  match r with
  | REmpty => k prev s
  | RBol => match prev with None => k prev s | Some _ => false end
  | REol =>
      match s with
      | [] => k prev s
      | [c] => (c =? LF) && k prev s
      | _ => false
      end
  | RWordB =>
      if xorb (opt_word prev) (opt_word (hd_error s)) then k prev s else false
  | RLit c =>
      match s with
      | x :: s' => if lit_ci c x then k (Some x) s' else false
      | [] => false
      end
  | RClass p =>
      match s with
      | x :: s' => if p x then k (Some x) s' else false
      | [] => false
      end
  | RSeq r1 r2 => rmatch r1 prev s (fun p s' => rmatch r2 p s' k)
  | RAlt r1 r2 => rmatch r1 prev s k || rmatch r2 prev s k
  | RStar r1 =>
      (fix loop (n : nat) (p : option Z) (s0 : text) {struct n} : bool :=
         k p s0 ||
         match n with
         | O => false
         | S n' =>
             rmatch r1 p s0
               (fun p' s' => (List.length s' <? List.length s0)%nat && loop n' p' s')
         end) (S (List.length s)) prev s
  end.

(** [rx.match(line)] *)
Definition rx_match (r : regex) (line : text) : bool :=
  rmatch r None line (fun _ _ => true).

Fixpoint rseq (rs : list regex) : regex :=
  match rs with
  | [] => REmpty
  | [r] => r
  | r :: rs' => RSeq r (rseq rs')
  end.

Definition RPlus (r : regex) : regex := RSeq r (RStar r).
Definition ROpt (r : regex) : regex := RAlt r REmpty.

(** [r{0,n}] *)
Fixpoint RUpTo (n : nat) (r : regex) : regex :=
  match n with
  | O => REmpty
  | S n' => RAlt (RSeq r (RUpTo n' r)) REmpty
  end.

Definition RStr (s : string) : regex := rseq (map RLit (s2z s)).
Definition RChars (cs : list Z) : regex := rseq (map RLit cs).

Definition r_s : regex := RClass py_isspace.                    (* \s *)
Definition r_S : regex := RClass (fun c => negb (py_isspace c)). (* \S *)
Definition r_not_nl : regex := RClass (fun c => negb (c =? LF)). (* [^\n], . *)
Definition r_email : regex := rseq [RPlus r_S; RLit 64; RPlus r_S]. (* \S+@\S+ *)

(** [[A-Za-z가-힣]] under [re.IGNORECASE]: the lowercase of the character
    is in the lowercased set, which [sre_compile] extends with U+0131 and
    U+017F. *)
Definition r_name_char : regex :=
  RClass (fun x =>
    let l := lower_sre x in
    ((97 <=? l) && (l <=? 122)) || (l =? 305) || (l =? 383) ||
    ((44032 <=? l) && (l <=? 55203))).

(** [[\w\-\.ㄱ-ㆎ가-힣 ]] (no cased member: matched as is). *)
Definition r_brand_char : regex :=
  RClass (fun x =>
    py_isword x || (x =? 45) || (x =? 46) ||
    ((12593 <=? x) && (x <=? 12686)) || ((44032 <=? x) && (x <=? 55203)) ||
    (x =? 32)).

Definition r_mailto_tail : regex :=
  rseq [RStar r_s; RLit 40; RStar r_s; RStr "mailto"; RStar r_s; RLit 58;
        RStar r_s; r_email; RStar r_s; RLit 41; RStar r_s; REol].

Definition SAFE_REGEXES : list regex :=
  [ (* ^\s*무단\s*전재\s*[·,]?\s*재배포\s*금지\s*\.?\s*$ *)
    rseq [RBol; RStar r_s; RChars [47924; 45800]; RStar r_s;
          RChars [51204; 51116]; RStar r_s;
          ROpt (RClass (fun x => (x =? 183) || (x =? 44))); RStar r_s;
          RChars [51116; 48176; 54252]; RStar r_s; RChars [44552; 51648];
          RStar r_s; ROpt (RLit 46); RStar r_s; REol];
    (* ^\s*All\s+rights\s+reserved\.?\s*$ *)
    rseq [RBol; RStar r_s; RStr "All"; RPlus r_s; RStr "rights"; RPlus r_s;
          RStr "reserved"; ROpt (RLit 46); RStar r_s; REol];
    (* ^\s*Copyright\b[^\n]{0,200}All\s+rights\s+reserved\.?\s*$ *)
    rseq [RBol; RStar r_s; RStr "Copyright"; RWordB; RUpTo 200 r_not_nl;
          RStr "All"; RPlus r_s; RStr "rights"; RPlus r_s; RStr "reserved";
          ROpt (RLit 46); RStar r_s; REol];
    (* ^\s*(문의|Contact)\s*[:]\s*\S+@\S+\s*$ *)
    rseq [RBol; RStar r_s; RAlt (RChars [47928; 51032]) (RStr "Contact");
          RStar r_s; RLit 58; RStar r_s; r_email; RStar r_s; REol];
    (* ^\s*[A-Za-z가-힣]+(?:\s+[A-Za-z가-힣]+)*\s*기자\s*[:]?\s*\S+@\S+\s*$ *)
    rseq [RBol; RStar r_s; RPlus r_name_char;
          RStar (RSeq (RPlus r_s) (RPlus r_name_char)); RStar r_s;
          RChars [44592; 51088]; RStar r_s; ROpt (RLit 58); RStar r_s;
          r_email; RStar r_s; REol];
    (* ^\s*제보\s*[:]\s*\S+@\S+\s*$ *)
    rseq [RBol; RStar r_s; RChars [51228; 48372]; RStar r_s; RLit 58;
          RStar r_s; r_email; RStar r_s; REol];
    (* ^\s*\S+@\S+\s*$ *)
    rseq [RBol; RStar r_s; r_email; RStar r_s; REol];
    (* ^\s*\[?\s*\S+@\S+\s*\]?\s*\(\s*mailto\s*:\s*\S+@\S+\s*\)\s*$ *)
    rseq [RBol; RStar r_s; ROpt (RLit 91); RStar r_s; r_email; RStar r_s;
          ROpt (RLit 93); r_mailto_tail];
    (* ^\s*.+?\s+\[?\s*\S+@\S+\s*\]?\s*\(\s*mailto\s*:\s*\S+@\S+\s*\)\s*$ *)
    rseq [RBol; RStar r_s; RPlus r_not_nl; RPlus r_s; ROpt (RLit 91);
          RStar r_s; r_email; RStar r_s; ROpt (RLit 93); r_mailto_tail];
    (* ^\s*[\w\-\.ㄱ-ㆎ가-힣 ]+\s+\S+@\S+\s*$ *)
    rseq [RBol; RStar r_s; RPlus r_brand_char; RPlus r_s; r_email;
          RStar r_s; REol] ].

(** [any(rx.match(line) for rx in SAFE_REGEXES)] *)
Definition safe_noise_line (line : text) : bool :=
  existsb (fun rx => rx_match rx line) SAFE_REGEXES.

Definition remove_noise_lines_safe_only (t : text) : text :=
  remove_noise_lines_with safe_noise_line t.

(** ** Python values: YAML documents, dicts and truthiness *)

#[local] Set Warnings "-register-all".

Inductive pyval : Type :=
| PyNone
| PyBool (b : bool)
| PyInt (z : Z)
| PyStr (s : text)
| PyList (l : list pyval)
| PyDict (kv : list (pyval * pyval)).

Definition py_truthy (v : pyval) : bool :=
  match v with
  | PyNone => false
  | PyBool b => b
  | PyInt z => negb (z =? 0)
  | PyStr s => negb (List.length s =? 0)%nat
  | PyList l => negb (List.length l =? 0)%nat
  | PyDict d => negb (List.length d =? 0)%nat
  end.

Fixpoint text_eqb (a b : text) : bool :=
  match a, b with
  | [], [] => true
  | x :: a', y :: b' => (x =? y) && text_eqb a' b'
  | _, _ => false
  end.

(** [d.get(k)] for a [str] key [k]: the entry whose key equals [k]. *)
Fixpoint dict_get (d : list (pyval * pyval)) (k : text) : pyval :=
  match d with
  | [] => PyNone
  | (PyStr k', v) :: d' => if text_eqb k' k then v else dict_get d' k
  | _ :: d' => dict_get d' k
  end.

(** [v.get(k)] on the value [v]: only a [dict] has [get]; on any other
    value the call raises [AttributeError] ([None]). *)
Definition pyval_get (v : pyval) (k : text) : option pyval :=
  match v with
  | PyDict d => Some (dict_get d k)
  | _ => None
  end.

(** ** strip_and_parse_front_matter *)

Fixpoint starts_with (p s : text) : bool :=
  match p, s with
  | [], _ => true
  | x :: p', y :: s' => (x =? y) && starts_with p' s'
  | _ :: _, [] => false
  end.

(** [s.split(sep, 1)]: [Some (before, after)] at the first occurrence of
    [sep], [None] when [sep] does not occur (a one-element result). *)
Fixpoint split_once (sep s : text) : option (text * text) :=
  if starts_with sep s then Some ([], skipn (List.length sep) s)
  else
    match s with
    | [] => None
    | c :: s' =>
        match split_once sep s' with
        | Some (a, b) => Some (c :: a, b)
        | None => None
        end
    end.

(** [s.lstrip(chars)] *)
Fixpoint lstrip_chars (cs : list Z) (s : text) : text :=
  match s with
  | [] => []
  | c :: s' => if existsb (Z.eqb c) cs then lstrip_chars cs s' else s
  end.

Definition DASHES : text := [45; 45; 45].                 (* "---" *)
Definition FM_DELIM : text := [LF; 45; 45; 45; LF].        (* "\n---\n" *)

(** [safe_load] is [yaml.safe_load]: [Some v] when it returns the Python
    value [v], [None] when it raises.  Lines 35-38:
    [try: fm = yaml.safe_load(fm_block) or {}] [except Exception: fm = {}]. *)
Definition load_front_matter (safe_load : text -> option pyval) (fm_block : text) : pyval :=
  match safe_load fm_block with
  | Some v => if py_truthy v then v else PyDict []
  | None => PyDict []
  end.

Definition strip_and_parse_front_matter (safe_load : text -> option pyval)
  (t : text) : text * pyval :=
  if starts_with DASHES t then
    match split_once FM_DELIM t with
    | Some (part0, part1) =>
        let fm_block := lstrip_chars [45; LF] part0 in
        (part1, load_front_matter safe_load fm_block)
    | None => (t, PyDict [])
    end
  else (t, PyDict []).

(** ** extract_endpoint *)

(** The keyword arguments of [trafilatura.extract] that the endpoint sets. *)
Record extract_opts : Type := mk_opts {
  include_comments : bool;
  include_tables : bool;
  fast : bool;
  with_metadata : bool
}.

(** [trafilatura.extract]'s defaults: [include_comments=True],
    [include_tables=True], [fast=False], [with_metadata=False]. *)
Definition trafilatura_defaults : extract_opts := mk_opts true true false false.

(** [extract(html, include_comments=False, include_tables=False, fast=True,
    with_metadata=True)] *)
Definition first_attempt_opts : extract_opts := mk_opts false false true true.

(** [extract(html, fast=False, with_metadata=True)] *)
Definition retry_opts : extract_opts :=
  mk_opts (include_comments trafilatura_defaults)
    (include_tables trafilatura_defaults) false true.

(** The outcome of the download block: the response (status and text) or
    an [httpx.RequestError] (timeout, connection or DNS failure). *)
Inductive fetch_result : Type :=
| Fetched (status : Z) (body : text)
| RequestError.

(** [httpx.Response.is_success]: [raise_for_status] raises
    [HTTPStatusError] for every other status. *)
Definition is_success (status : Z) : bool := (200 <=? status) && (status <=? 299).

Inductive response : Type :=
| HTTPError (status : Z)                     (* HTTPException(status_code=...) *)
| ServerError                                (* an uncaught exception: 500 *)
| Ok (title : pyval) (body : text) (source : text) (published_at site : pyval).

(** Lines 135-137, with the short-circuit of [or]: [fm.get] is only called
    when the operands before it are falsy. *)
Definition merge_meta (md : list (pyval * pyval)) (fm : pyval)
  : option (pyval * pyval * pyval) :=
  let title := dict_get md (s2z "title") in
  let published_at :=
    let a := dict_get md (s2z "date") in
    if py_truthy a then Some a
    else match pyval_get fm (s2z "date") with
         | None => None
         | Some b => if py_truthy b then Some b else pyval_get fm (s2z "published_at")
         end in
  let site :=
    let a := dict_get md (s2z "sitename") in
    if py_truthy a then Some a
    else match pyval_get fm (s2z "site") with
         | None => None
         | Some b => if py_truthy b then Some b else Some (dict_get md (s2z "hostname"))
         end in
  match published_at, site with
  | Some p, Some s => Some (title, p, s)
  | _, _ => None
  end.

(** [not text] for the [str | None] result of [extract]. *)
Definition extracted_empty (r : option text) : bool :=
  match r with
  | None => true
  | Some t => (List.length t =? 0)%nat
  end.

(** The endpoint, given the external collaborators: [extract] is
    [trafilatura.extract] ([None] for a [None] result), [extract_metadata]
    is [trafilatura.extract_metadata] followed by [as_dict()] ([None] when
    it yields no document), [safe_load] is [yaml.safe_load].  The second
    component lists the keyword arguments of each [extract] call, in call
    order. *)
Definition extract_endpoint
  (extract : text -> extract_opts -> option text)
  (extract_metadata : text -> text -> option (list (pyval * pyval)))
  (safe_load : text -> option pyval)
  (url : text) (trim_newlines : bool) (fetch : fetch_result)
  : response * list extract_opts :=
  match fetch with
  | RequestError => (HTTPError 504, [])
  | Fetched status html =>
      if negb (is_success status) then (HTTPError status, [])
      else
        let r1 := extract html first_attempt_opts in
        let attempt :=
          if negb (extracted_empty r1) then (r1, [first_attempt_opts])
          else (extract html retry_opts, [first_attempt_opts; retry_opts]) in
        let calls := snd attempt in
        match fst attempt with
        | None => (HTTPError 422, calls)
        | Some t =>
            if (List.length t =? 0)%nat then (HTTPError 422, calls)
            else
              let '(t, fm) := strip_and_parse_front_matter safe_load t in
              let t := remove_noise_lines_safe_only t in
              let final_text :=
                if trim_newlines then collapse_newlines_to_spaces t else t in
              let md :=
                match extract_metadata html url with
                | Some d => d
                | None => []
                end in
              match merge_meta md fm with
              | None => (ServerError, calls)
              | Some (title, published_at, site) =>
                  (Ok title final_text url published_at site, calls)
              end
        end
  end.

(** [yaml.safe_load] on the two documents used in the concrete cases
    below, as PyYAML returns them ([{'k': 1}] and ['hello']); any other
    document is treated as one that raises. *)
Definition pyyaml_examples (doc : text) : option pyval :=
  if text_eqb doc (s2z "k: 1") then Some (PyDict [(PyStr (s2z "k"), PyInt 1)])
  else if text_eqb doc (s2z "hello") then Some (PyStr (s2z "hello"))
  else None.

(** The [\n]-separated pieces of a string ([s.split("\n")]). *)
Fixpoint pieces_go (cur : text) (s : text) : list text :=
  match s with
  | [] => [rev cur]
  | c :: s' => if c =? LF then rev cur :: pieces_go [] s' else pieces_go (c :: cur) s'
  end.

Definition nonempty (l : text) : bool := match l with [] => false | _ => true end.

(** [s] without its last character when that is a newline. *)
Definition drop_trailing_LF (s : text) : text :=
  match rev s with
  | c :: r => if c =? LF then rev r else s
  | [] => []
  end.

(** No run of three newlines ([re.sub(r"\n{3,}", ...)] has nothing to do);
    [n] newlines precede [s]. *)
Fixpoint nl_runs_ok (n : nat) (s : text) : bool :=
  match s with
  | [] => (n <? 3)%nat
  | c :: s' => if c =? LF then nl_runs_ok (S n) s' else (n <? 3)%nat && nl_runs_ok 0 s'
  end.

(** No two adjacent [\s] characters. *)
Fixpoint no_double_ws (s : text) : bool :=
  match s with
  | a :: ((b :: _) as s') => negb (py_isspace a && py_isspace b) && no_double_ws s'
  | _ => true
  end.

(** Python's [a or b]. *)
Definition py_or (a b : pyval) : pyval := if py_truthy a then a else b.

(** ** Inputs of the concrete cases *)

(** ["---\n" + key + ": " + value + "\n---\n" + body] *)
Definition fm_doc (key value body : text) : text :=
  DASHES ++ LF :: key ++ [58; 32] ++ value ++ FM_DELIM ++ body.

(** A line of 5001 letters followed by a space. *)
Definition long_line_example : text := repeat 97%Z 5001 ++ [SPACE].

(** ["a@b"] followed by 4998 spaces: 5001 characters before [rstrip]. *)
Definition padded_email_line : text := s2z "a@b" ++ repeat SPACE 4998.

(** ["a\n\n"] *)
Definition trailing_blank_example : text := s2z "a" ++ [LF; LF].

Definition example_url : text := s2z "https://example.com/news/1".
Definition example_html : text := s2z "<html><body></body></html>".

(** An extractor whose fast pass finds nothing and whose other passes
    return [t]. *)
Definition extractor_fast_empty (t : text) : text -> extract_opts -> option text :=
  fun _ o => if fast o then None else Some t.

(** An extractor that returns three spaces, no metadata, and a YAML
    loader that always raises. *)
Definition blank_extractor : text -> extract_opts -> option text :=
  fun _ _ => Some (s2z "   ").
Definition no_metadata : text -> text -> option (list (pyval * pyval)) :=
  fun _ _ => None.
Definition yaml_raises : text -> option pyval := fun _ => None.

(** ["---\nhello\n---\nbody"]: a front-matter block holding a plain
    scalar. *)
Definition scalar_fm_doc : text := DASHES ++ LF :: s2z "hello" ++ FM_DELIM ++ s2z "body".

(** ** The response text under a function *)

(** The [Ok] response with its [text] mapped by [f]; errors unchanged. *)
Definition map_text (f : text -> text) (r : response) : response :=
  match r with
  | Ok title body source published_at site => Ok title (f body) source published_at site
  | r => r
  end.

(** [normalize_newlines]'s map on one character. *)
Definition tab_to_space (c : Z) : Z := if c =? TAB then SPACE else c.

(** A non-whitespace character ([not c.isspace()]). *)
Definition not_space (c : Z) : bool := negb (py_isspace c).

(** * app/main.py *)

(** [s.split(sep)] for a one-character separator [sep]. *)
Fixpoint split_go (sep : Z) (cur : text) (s : text) : list text :=
  match s with
  | [] => [rev cur]
  | c :: s' => if c =? sep then rev cur :: split_go sep [] s' else split_go sep (c :: cur) s'
  end.

Definition py_split_char (sep : Z) (s : text) : list text := split_go sep [] s.

(** [sep.join(l)] for a one-character [sep]. *)
Fixpoint join_sep (sep : Z) (l : list text) : text :=
  match l with
  | [] => []
  | [x] => x
  | x :: l' => x ++ sep :: join_sep sep l'
  end.

Definition COMMA : Z := 44.

(** [[k.strip() for k in pieces if k.strip()]] *)
Fixpoint api_keys_of (pieces : list text) : list text :=
  match pieces with
  | [] => []
  | k :: ks => if nonempty (py_strip k) then py_strip k :: api_keys_of ks else api_keys_of ks
  end.

(** Lines 18-22: [raw = os.getenv("API_KEYS", "")], the key list, and the
    [RuntimeError] raised at import when it is empty ([None]).  [env] is
    the environment variable, [None] when unset. *)
Definition load_api_keys (env : option text) : option (list text) :=
  let raw := match env with Some r => r | None => [] end in
  let keys := api_keys_of (py_split_char COMMA raw) in
  match keys with
  | [] => None
  | _ => Some keys
  end.

Definition is_ascii (s : text) : bool := forallb (fun c => c <? 128) s.

(** [hmac.compare_digest] on two [str]: [None] when it raises [TypeError]
    (a string with a non-ASCII character), else whether they are equal. *)
Definition compare_digest (a b : text) : option bool :=
  if is_ascii a && is_ascii b then Some (text_eqb a b) else None.

(** The outcome of [verify_api_key]: [True], [HTTPException(401)], or the
    [TypeError] of [compare_digest] propagating (an internal error). *)
Inductive auth_result : Type :=
| AuthOk
| Unauthorized
| AuthTypeError.

(** Lines 34-36: [for k in API_KEYS: if hmac.compare_digest(x_api_key, k):
    return True], then 401. *)
Fixpoint check_keys (x_api_key : text) (keys : list text) : auth_result :=
  match keys with
  | [] => Unauthorized
  | k :: ks =>
      match compare_digest x_api_key k with
      | None => AuthTypeError
      | Some true => AuthOk
      | Some false => check_keys x_api_key ks
      end
  end.

(** [x_api_key] is the [X-API-Key] header ([None] when absent, as
    [APIKeyHeader(auto_error=False)] passes it). *)
Definition verify_api_key (api_keys : list text) (x_api_key : option text) : auth_result :=
  match x_api_key with
  | None => Unauthorized
  | Some x => if nonempty x then check_keys x api_keys else Unauthorized
  end.



(** * Lemmas *)

Lemma Zeqb_refl_true (x : Z) : (x =? x) = true.
Proof. apply Z.eqb_refl. Qed.

Lemma LF_is_linebreak : py_is_linebreak LF = true.
Proof. reflexivity. Qed.

Lemma CR_is_linebreak : py_is_linebreak CR = true.
Proof. reflexivity. Qed.

Lemma LF_is_space : py_isspace LF = true.
Proof. reflexivity. Qed.

Lemma text_len_ind (P : text -> Prop) :
  (forall s, (forall s', (List.length s' < List.length s)%nat -> P s') -> P s) ->
  forall s, P s.
Proof.
  intros H s. remember (List.length s) as n eqn:En.
  revert s En. induction n as [n IHn] using (well_founded_induction Nat.lt_wf_0).
  intros s ->. apply H. intros s' Hlt. apply (IHn _ Hlt). reflexivity.
Qed.

(** ** normalize_newlines *)

Lemma replace_char_in (a b c : Z) (s : text) :
  In c (replace_char a b s) -> (c = b) \/ (c <> a /\ In c s).
Proof.
  unfold replace_char. intros H. apply in_map_iff in H as [x [Hx Hin]].
  destruct (Z.eqb_spec x a); subst; [left; reflexivity | right; split; auto].
Qed.

Lemma replace_crlf_in (c : Z) (s : text) : In c (replace_crlf s) -> c = LF \/ In c s.
Proof.
  revert c. induction s as [s IH] using text_len_ind. intros c.
  destruct s as [| x s']; simpl; [tauto |].
  destruct (x =? CR) eqn:Ex.
  - destruct s' as [| d s'']; simpl.
    + intros [H | []]; right; left; auto.
    + destruct (d =? LF) eqn:Ed; simpl.
      * intros [H | H]; [left; auto |].
        destruct (IH s'' ltac:(simpl; lia) c H); simpl; auto.
      * intros [H | H]; [right; left; auto |].
        destruct (IH (d :: s'') ltac:(simpl; lia) c H); simpl; auto.
  - intros [H | H]; [right; left; auto |].
    destruct (IH s' ltac:(simpl; lia) c H); simpl; auto.
Qed.

Lemma normalize_no_CR_TAB (t : text) (c : Z) :
  In c (normalize_newlines t) -> c <> CR /\ c <> TAB.
Proof.
  unfold normalize_newlines. intros H.
  apply replace_char_in in H as [-> | [HT H]]; [split; discriminate |].
  apply replace_char_in in H as [-> | [HC _]]; [split; discriminate | auto].
Qed.

Lemma replace_crlf_id (s : text) : ~ In CR s -> replace_crlf s = s.
Proof.
  induction s as [| x s IH]; simpl; auto. intros H.
  destruct (Z.eqb_spec x CR); [exfalso; auto |]. f_equal. auto.
Qed.

Lemma replace_char_id (a b : Z) (s : text) : ~ In a s -> replace_char a b s = s.
Proof.
  induction s as [| x s IH]; simpl; auto. intros H.
  destruct (Z.eqb_spec x a); [exfalso; auto |]. f_equal. auto.
Qed.

Lemma normalize_id (s : text) : ~ In CR s -> ~ In TAB s -> normalize_newlines s = s.
Proof.
  intros HC HT. unfold normalize_newlines.
  rewrite replace_crlf_id by exact HC.
  rewrite (replace_char_id CR LF s HC). apply replace_char_id, HT.
Qed.

(** ** str.splitlines and the [\n]-pieces of a string *)

Definition only_LF_breaks (s : text) : Prop :=
  forall c, In c s -> py_is_linebreak c = true -> c = LF.

Lemma in_rev_iff (c : Z) (l : text) : In c (rev l) <-> In c l.
Proof. split; [apply in_rev | intros H; apply (in_rev l); exact H]. Qed.

Lemma not_CR_eqb (c : Z) : c <> CR -> (c =? CR) = false.
Proof. intros H. apply Z.eqb_neq. exact H. Qed.

Lemma splitlines_go_chars (s cur : text) :
  ~ In CR s -> (forall c, In c cur -> py_is_linebreak c = false) ->
  forall l c, In l (splitlines_go cur s) -> In c l ->
  py_is_linebreak c = false /\ (In c cur \/ In c s).
Proof.
  revert cur. induction s as [| x s IH]; intros cur HCR Hcur l c Hl Hc.
  - destruct cur as [| y cur']; cbn [splitlines_go] in Hl; [contradiction |].
    destruct Hl as [<- | []]. apply (proj1 (in_rev_iff _ _)) in Hc. auto.
  - assert (HxCR : x <> CR) by (intros ->; apply HCR; left; reflexivity).
    assert (HsCR : ~ In CR s) by (intros H; apply HCR; right; exact H).
    cbn [splitlines_go] in Hl. rewrite (not_CR_eqb x HxCR) in Hl.
    destruct (py_is_linebreak x) eqn:Ebx.
    + destruct Hl as [<- | Hl].
      * apply (proj1 (in_rev_iff _ _)) in Hc. auto.
      * destruct (IH [] HsCR ltac:(simpl; tauto) l c Hl Hc) as [Hb [[] | Hin]].
        split; [exact Hb | right; right; exact Hin].
    + assert (Hxc : forall c, In c (x :: cur) -> py_is_linebreak c = false)
        by (intros d [<- | Hd]; auto).
      destruct (IH (x :: cur) HsCR Hxc l c Hl Hc) as [Hb [[<- | Hin] | Hin]];
        split; auto; simpl; tauto.
Qed.

Lemma splitlines_pieces (s cur : text) :
  only_LF_breaks s ->
  forall l, nonempty l = true ->
  (In l (splitlines_go cur s) <-> In l (pieces_go cur s)).
Proof.
  revert cur. induction s as [| x s IH]; intros cur Hs l Hl.
  - destruct cur as [| y cur']; simpl; [| tauto].
    split; [tauto | intros [<- | []]; discriminate].
  - assert (Hs' : only_LF_breaks s) by (intros c Hc; apply Hs; right; exact Hc).
    simpl. destruct (Z.eqb_spec x LF) as [-> | HxLF].
    + simpl. specialize (IH [] Hs' l Hl). tauto.
    + assert (Hbx : py_is_linebreak x = false).
      { destruct (py_is_linebreak x) eqn:E; [| reflexivity].
        exfalso. apply HxLF. apply Hs; [left; reflexivity | exact E]. }
      assert (HxCR : x <> CR) by (intros ->; discriminate).
      rewrite (not_CR_eqb x HxCR), Hbx. apply IH; assumption.
Qed.

Lemma splitlines_go_nonnil (s cur : text) :
  (s <> [] \/ cur <> []) -> splitlines_go cur s <> [].
Proof.
  revert cur. induction s as [s IH] using text_len_ind. intros cur Hne.
  destruct s as [| x s']; simpl.
  - destruct cur; [destruct Hne as [H | H]; contradiction | discriminate].
  - destruct (x =? CR).
    + destruct s' as [| d s'']; [discriminate |].
      destruct (d =? LF); discriminate.
    + destruct (py_is_linebreak x); [discriminate |].
      apply IH; [simpl; lia | right; discriminate].
Qed.

Lemma join_nl_cons (x : text) (l : list text) :
  l <> [] -> join_nl (x :: l) = x ++ LF :: join_nl l.
Proof. destruct l; [contradiction | reflexivity]. Qed.

Lemma drop_trailing_LF_snoc (a : text) : drop_trailing_LF (a ++ [LF]) = a.
Proof.
  unfold drop_trailing_LF. rewrite rev_app_distr. simpl. rewrite rev_involutive.
  reflexivity.
Qed.

Lemma drop_trailing_LF_app (a b : text) :
  b <> [] -> drop_trailing_LF (a ++ b) = a ++ drop_trailing_LF b.
Proof.
  intros Hb. unfold drop_trailing_LF. rewrite rev_app_distr.
  destruct (rev b) as [| c r] eqn:Eb.
  - exfalso. apply Hb. rewrite <- (rev_involutive b), Eb. reflexivity.
  - simpl. destruct (c =? LF).
    + rewrite rev_app_distr, rev_involutive. reflexivity.
    + reflexivity.
Qed.

Lemma join_splitlines (s cur : text) :
  only_LF_breaks s -> ~ In LF cur ->
  join_nl (splitlines_go cur s) = drop_trailing_LF (rev cur ++ s).
Proof.
  revert cur. induction s as [| x s IH]; intros cur Hs Hcur.
  - rewrite app_nil_r. destruct cur as [| y cur']; [reflexivity |].
    cbn [splitlines_go join_nl]. unfold drop_trailing_LF. rewrite rev_involutive.
    assert (Hy : (y =? LF) = false)
      by (apply Z.eqb_neq; intros ->; apply Hcur; left; reflexivity).
    rewrite Hy. reflexivity.
  - assert (Hs' : only_LF_breaks s) by (intros c Hc; apply Hs; right; exact Hc).
    cbn [splitlines_go]. destruct (Z.eqb_spec x LF) as [-> | HxLF].
    + rewrite (not_CR_eqb LF) by discriminate. rewrite LF_is_linebreak.
      destruct s as [| y s''].
      * cbn [splitlines_go join_nl]. rewrite drop_trailing_LF_snoc. reflexivity.
      * rewrite join_nl_cons
          by (apply splitlines_go_nonnil; left; discriminate).
        rewrite (IH [] Hs' ltac:(simpl; tauto)). simpl.
        replace (rev cur ++ LF :: y :: s'') with ((rev cur ++ [LF]) ++ y :: s'')
          by (rewrite <- app_assoc; reflexivity).
        rewrite drop_trailing_LF_app by discriminate.
        rewrite <- app_assoc. reflexivity.
    + assert (Hbx : py_is_linebreak x = false).
      { destruct (py_is_linebreak x) eqn:E; [| reflexivity].
        exfalso. apply HxLF. apply Hs; [left; reflexivity | exact E]. }
      assert (HxCR : x <> CR) by (intros ->; discriminate).
      rewrite (not_CR_eqb x HxCR), Hbx.
      rewrite (IH (x :: cur) Hs') by (intros [H | H]; [auto | apply Hcur; exact H]).
      simpl. rewrite <- app_assoc. reflexivity.
Qed.

(** ** "\n".join and the pieces *)

Lemma pieces_app_noLF (x y cur : text) :
  ~ In LF x -> pieces_go cur (x ++ y) = pieces_go (rev x ++ cur) y.
Proof.
  revert cur. induction x as [| a x IH]; intros cur Hx; [reflexivity |].
  cbn [app pieces_go].
  assert (Ha : (a =? LF) = false)
    by (apply Z.eqb_neq; intros ->; apply Hx; left; reflexivity).
  rewrite Ha, IH by (intros H; apply Hx; right; exact H).
  cbn [rev]. rewrite <- app_assoc. reflexivity.
Qed.

Lemma pieces_join (K : list text) :
  K <> [] -> (forall l, In l K -> ~ In LF l) -> pieces_go [] (join_nl K) = K.
Proof.
  induction K as [| x K IH]; intros Hne HK; [contradiction |].
  destruct K as [| y K'].
  - cbn [join_nl]. rewrite <- (app_nil_r x) at 1.
    rewrite pieces_app_noLF by (apply HK; left; reflexivity).
    cbn [pieces_go]. rewrite app_nil_r, rev_involutive. reflexivity.
  - rewrite join_nl_cons by discriminate.
    rewrite pieces_app_noLF by (apply HK; left; reflexivity).
    cbn [pieces_go]. rewrite Zeqb_refl_true, app_nil_r, rev_involutive.
    rewrite IH; [reflexivity | discriminate |].
    intros l Hl. apply HK. right. exact Hl.
Qed.

Lemma join_chars (K : list text) (c : Z) :
  In c (join_nl K) -> c = LF \/ exists l, In l K /\ In c l.
Proof.
  induction K as [| x K IH]; [intros [] |].
  destruct K as [| y K'].
  - intros H. right. exists x. split; [left; reflexivity | exact H].
  - rewrite join_nl_cons by discriminate. intros H.
    apply in_app_or in H as [H | [H | H]].
    + right. exists x. split; [left; reflexivity | exact H].
    + left. symmetry. exact H.
    + destruct (IH H) as [? | [l [Hl Hc]]]; [left; assumption |].
      right. exists l. split; [right; exact Hl | exact Hc].
Qed.

(** ** re.sub(r"\n{3,}", "\n\n", s) *)

Lemma nl_block_chars (n : nat) (c : Z) : In c (nl_block n) -> c = LF.
Proof.
  unfold nl_block. destruct (3 <=? n)%nat.
  - intros [H | [H | []]]; symmetry; exact H.
  - intros H. apply repeat_spec in H. exact H.
Qed.

Lemma collapse_chars (s : text) (n : nat) (c : Z) :
  In c (collapse_nl_aux n s) -> c = LF \/ In c s.
Proof.
  revert n. induction s as [| x s IH]; intros n; cbn [collapse_nl_aux].
  - intros H. left. exact (nl_block_chars n c H).
  - destruct (x =? LF).
    + intros H. destruct (IH (S n) H); [left | right; right]; assumption.
    + intros H. apply in_app_or in H as [H | [H | H]].
      * left. exact (nl_block_chars n c H).
      * right. left. exact H.
      * destruct (IH 0%nat H); [left | right; right]; assumption.
Qed.

Lemma nl_block_S (n : nat) : exists m, nl_block (S n) = repeat LF (S m).
Proof.
  unfold nl_block. destruct (3 <=? S n)%nat.
  - exists 1%nat. reflexivity.
  - exists n. reflexivity.
Qed.

Lemma pieces_repeat_LF (k : nat) (cur X : text) :
  pieces_go cur (repeat LF (S k) ++ X) = rev cur :: repeat [] k ++ pieces_go [] X.
Proof.
  revert cur. induction k as [| k IH]; intros cur.
  - cbn [repeat app pieces_go]. rewrite Zeqb_refl_true. reflexivity.
  - change (repeat LF (S (S k)) ++ X) with (LF :: (repeat LF (S k) ++ X)).
    cbn [pieces_go]. rewrite Zeqb_refl_true, IH. reflexivity.
Qed.

Lemma filter_nonempty_repeat (k : nat) (L : list text) :
  filter nonempty (repeat [] k ++ L) = filter nonempty L.
Proof. induction k; simpl; auto. Qed.

Lemma filter_pieces_repeat_LF (k : nat) (cur X : text) :
  filter nonempty (pieces_go cur (repeat LF (S k) ++ X)) =
  filter nonempty (rev cur :: pieces_go [] X).
Proof.
  rewrite pieces_repeat_LF. cbn [filter].
  rewrite filter_nonempty_repeat. reflexivity.
Qed.

Lemma repeat_snoc_app (x : Z) (n : nat) (l : text) :
  repeat x n ++ x :: l = repeat x (S n) ++ l.
Proof.
  induction n as [| n IH]; [reflexivity |].
  cbn [repeat app]. rewrite IH. reflexivity.
Qed.

(** Collapsing blank lines keeps the nonempty pieces. *)
Lemma collapse_nonempty_pieces (s : text) (n : nat) (cur : text) :
  filter nonempty (pieces_go cur (collapse_nl_aux n s)) =
  filter nonempty (pieces_go cur (repeat LF n ++ s)).
Proof.
  revert n cur. induction s as [| x s IH]; intros n cur.
  - cbn [collapse_nl_aux]. rewrite app_nil_r. destruct n as [| n]; [reflexivity |].
    destruct (nl_block_S n) as [m ->].
    rewrite <- (app_nil_r (repeat LF (S m))), <- (app_nil_r (repeat LF (S n))).
    rewrite !filter_pieces_repeat_LF. reflexivity.
  - cbn [collapse_nl_aux]. destruct (Z.eqb_spec x LF) as [-> | HxLF].
    + rewrite IH, repeat_snoc_app. reflexivity.
    + assert (Hx : (x =? LF) = false) by (apply Z.eqb_neq; exact HxLF).
      destruct n as [| n].
      * cbn [nl_block repeat app pieces_go Nat.leb]. rewrite Hx, IH.
        cbn [repeat app]. reflexivity.
      * destruct (nl_block_S n) as [m ->].
        rewrite !filter_pieces_repeat_LF. cbn [filter pieces_go].
        rewrite Hx, IH. cbn [repeat app]. reflexivity.
Qed.

Lemma nl_runs_ok_bound (s : text) (n : nat) : nl_runs_ok n s = true -> (n < 3)%nat.
Proof.
  revert n. induction s as [| x s IH]; intros n; cbn [nl_runs_ok].
  - intros H. apply Nat.ltb_lt. exact H.
  - destruct (x =? LF).
    + intros H. specialize (IH (S n) H). lia.
    + intros H. apply andb_true_iff in H as [H _]. apply Nat.ltb_lt. exact H.
Qed.

Lemma nl_runs_ok_repeat (k j : nat) (X : text) :
  nl_runs_ok k (repeat LF j ++ X) = nl_runs_ok (k + j) X.
Proof.
  revert k. induction j as [| j IH]; intros k.
  - rewrite Nat.add_0_r. reflexivity.
  - cbn [repeat app nl_runs_ok]. rewrite Zeqb_refl_true, IH.
    f_equal. lia.
Qed.

Lemma nl_block_small (n : nat) : exists j, nl_block n = repeat LF j /\ (j < 3)%nat.
Proof.
  unfold nl_block. destruct (3 <=? n)%nat eqn:E.
  - exists 2%nat. split; [reflexivity | lia].
  - exists n. apply Nat.leb_gt in E. split; [reflexivity | lia].
Qed.

Lemma collapse_nl_runs_ok (s : text) (n : nat) : nl_runs_ok 0 (collapse_nl_aux n s) = true.
Proof.
  revert n. induction s as [| x s IH]; intros n; cbn [collapse_nl_aux].
  - destruct (nl_block_small n) as [j [-> Hj]].
    rewrite <- (app_nil_r (repeat LF j)), nl_runs_ok_repeat.
    apply Nat.ltb_lt. simpl. exact Hj.
  - destruct (Z.eqb_spec x LF); [apply IH |].
    destruct (nl_block_small n) as [j [-> Hj]].
    rewrite nl_runs_ok_repeat. cbn [nl_runs_ok Nat.add].
    assert (Hx : (x =? LF) = false) by (apply Z.eqb_neq; assumption).
    rewrite Hx, IH. apply andb_true_iff. split; [apply Nat.ltb_lt; exact Hj | reflexivity].
Qed.

Lemma collapse_id (s : text) (n : nat) :
  nl_runs_ok n s = true -> collapse_nl_aux n s = repeat LF n ++ s.
Proof.
  revert n. induction s as [| x s IH]; intros n H.
  - pose proof (nl_runs_ok_bound _ _ H) as Hn. cbn [collapse_nl_aux].
    unfold nl_block. replace (3 <=? n)%nat with false by (symmetry; apply Nat.leb_gt; lia).
    rewrite app_nil_r. reflexivity.
  - cbn [nl_runs_ok] in H. cbn [collapse_nl_aux].
    destruct (Z.eqb_spec x LF) as [-> | HxLF].
    + rewrite (IH (S n) H). rewrite repeat_snoc_app. reflexivity.
    + apply andb_true_iff in H as [Hn H]. apply Nat.ltb_lt in Hn.
      rewrite (IH 0%nat H). unfold nl_block.
      replace (3 <=? n)%nat with false by (symmetry; apply Nat.leb_gt; lia).
      reflexivity.
Qed.

Lemma nl_runs_ok_snoc (s : text) (n : nat) :
  nl_runs_ok n (s ++ [LF]) = true -> nl_runs_ok n s = true.
Proof.
  revert n. induction s as [| x s IH]; intros n; cbn [app nl_runs_ok].
  - rewrite Zeqb_refl_true. cbn [nl_runs_ok]. intros H.
    apply Nat.ltb_lt in H. apply Nat.ltb_lt. lia.
  - destruct (x =? LF); [apply IH |].
    intros H. apply andb_true_iff in H as [H1 H2].
    rewrite H1. apply IH. exact H2.
Qed.

Lemma drop_trailing_LF_cases (s : text) :
  drop_trailing_LF s = s \/ s = drop_trailing_LF s ++ [LF].
Proof.
  unfold drop_trailing_LF. destruct (rev s) as [| c r] eqn:E.
  { left. rewrite <- (rev_involutive s), E. reflexivity. }
  destruct (Z.eqb_spec c LF) as [-> | _]; [right | left; reflexivity].
  rewrite <- (rev_involutive s), E. reflexivity.
Qed.

Lemma nl_runs_ok_drop (s : text) :
  nl_runs_ok 0 s = true -> nl_runs_ok 0 (drop_trailing_LF s) = true.
Proof.
  intros H. destruct (drop_trailing_LF_cases s) as [E | E].
  - rewrite E. exact H.
  - apply nl_runs_ok_snoc. rewrite <- E. exact H.
Qed.

(** ** str.rstrip *)

Lemma lstrip_ws_suffix (s : text) : exists p, s = p ++ lstrip_ws s.
Proof.
  induction s as [| x s [p Hp]]; [exists []; reflexivity |].
  cbn [lstrip_ws]. destruct (py_isspace x).
  - exists (x :: p). rewrite Hp at 1. reflexivity.
  - exists []. reflexivity.
Qed.

Lemma lstrip_ws_idem (s : text) : lstrip_ws (lstrip_ws s) = lstrip_ws s.
Proof.
  induction s as [| x s IH]; [reflexivity |].
  cbn [lstrip_ws]. destruct (py_isspace x) eqn:E; [exact IH |].
  cbn [lstrip_ws]. rewrite E. reflexivity.
Qed.

Lemma rstrip_idem (s : text) : rstrip (rstrip s) = rstrip s.
Proof. unfold rstrip. rewrite rev_involutive, lstrip_ws_idem. reflexivity. Qed.

Lemma rstrip_prefix (s : text) : exists q, s = rstrip s ++ q.
Proof.
  destruct (lstrip_ws_suffix (rev s)) as [p Hp]. exists (rev p).
  unfold rstrip. rewrite <- rev_app_distr, <- Hp, rev_involutive. reflexivity.
Qed.

Lemma rstrip_chars (s : text) (c : Z) : In c (rstrip s) -> In c s.
Proof.
  intros H. destruct (rstrip_prefix s) as [q Hq]. rewrite Hq.
  apply in_or_app. left. exact H.
Qed.

(** ** The line loop of remove_noise_lines_safe_only *)

Lemma clean_lines_in (m : text -> bool) (L : list text) (l : text) :
  In l (clean_lines m L) ->
  exists raw, In raw L /\ l = rstrip raw /\
    (LONG_LINE < Z.of_nat (List.length l) \/ m l = false).
Proof.
  induction L as [| raw L IH]; [intros [] |]. cbn [clean_lines].
  destruct (LONG_LINE <? Z.of_nat (List.length (rstrip raw))) eqn:Elong;
    [| destruct (m (rstrip raw)) eqn:Em].
  - intros [<- | H].
    + exists raw. split; [left; reflexivity | split; [reflexivity |]].
      left. apply Z.ltb_lt. exact Elong.
    + destruct (IH H) as [r [Hr Hl]]. exists r. split; [right; exact Hr | exact Hl].
  - intros H. destruct (IH H) as [r [Hr Hl]]. exists r. split; [right; exact Hr | exact Hl].
  - intros [<- | H].
    + exists raw. split; [left; reflexivity | split; [reflexivity |]].
      right. exact Em.
    + destruct (IH H) as [r [Hr Hl]]. exists r. split; [right; exact Hr | exact Hl].
Qed.

Lemma clean_lines_keep_long (m : text -> bool) (L : list text) (raw : text) :
  In raw L -> LONG_LINE < Z.of_nat (List.length (rstrip raw)) ->
  In (rstrip raw) (clean_lines m L).
Proof.
  induction L as [| r L IH]; [intros [] |]. intros Hin Hlong. cbn [clean_lines].
  destruct Hin as [-> | Hin].
  - apply Z.ltb_lt in Hlong. rewrite Hlong. left. reflexivity.
  - specialize (IH Hin Hlong).
    destruct (LONG_LINE <? Z.of_nat (List.length (rstrip r))); [right; exact IH |].
    destruct (m (rstrip r)); [exact IH | right; exact IH].
Qed.

Lemma clean_lines_id (m : text -> bool) (L : list text) :
  (forall l, In l L -> rstrip l = l /\ (LONG_LINE < Z.of_nat (List.length l) \/ m l = false)) ->
  clean_lines m L = L.
Proof.
  induction L as [| l L IH]; intros H; [reflexivity |]. cbn [clean_lines].
  destruct (H l (or_introl eq_refl)) as [Hr Hk]. rewrite Hr.
  rewrite IH by (intros l' Hl'; apply H; right; exact Hl').
  destruct (LONG_LINE <? Z.of_nat (List.length l)) eqn:E; [reflexivity |].
  destruct Hk as [Hk | Hk].
  - apply Z.ltb_lt in Hk. rewrite Hk in E. discriminate.
  - rewrite Hk. reflexivity.
Qed.

Section NoiseFilter.

(** The line test of the filter; the only fact used about it is that it
    does not reject the empty line. *)
Variable is_noise : text -> bool.
Hypothesis is_noise_nil : is_noise [] = false.

Local Abbreviation filt := (remove_noise_lines_with is_noise).
Local Abbreviation kept t := (clean_lines is_noise (py_splitlines (normalize_newlines t))).

Lemma remove_noise_eq (t : text) : filt t = collapse_nl_aux 0 (join_nl (kept t)).
Proof. reflexivity. Qed.

Lemma kept_line_props (t l : text) :
  In l (kept t) ->
  rstrip l = l /\ (LONG_LINE < Z.of_nat (List.length l) \/ is_noise l = false) /\
  (forall c, In c l -> py_is_linebreak c = false /\ c <> TAB).
Proof.
  intros H. destruct (clean_lines_in _ _ _ H) as [raw [Hraw [-> Hk]]].
  split; [apply rstrip_idem | split; [exact Hk |]].
  intros c Hc. apply rstrip_chars in Hc.
  assert (HCR : ~ In CR (normalize_newlines t))
    by (intros Hn; exact (proj1 (normalize_no_CR_TAB t CR Hn) eq_refl)).
  destruct (splitlines_go_chars (normalize_newlines t) [] HCR
              ltac:(intros d []) raw c Hraw Hc) as [Hb [[] | Hin]].
  split; [exact Hb | exact (proj2 (normalize_no_CR_TAB t c Hin))].
Qed.

Lemma output_chars (t : text) (c : Z) :
  In c (filt t) -> c = LF \/ (py_is_linebreak c = false /\ c <> TAB).
Proof.
  rewrite remove_noise_eq. intros H.
  destruct (collapse_chars _ _ _ H) as [? | H1]; [left; assumption |].
  destruct (join_chars _ _ H1) as [? | [l [Hl Hc]]]; [left; assumption |].
  right. apply (kept_line_props t l Hl). exact Hc.
Qed.

Lemma output_only_LF_breaks (t : text) : only_LF_breaks (filt t).
Proof.
  intros c Hc Hb. destruct (output_chars t c Hc) as [? | [Hb' _]]; [assumption |].
  rewrite Hb in Hb'. discriminate.
Qed.

Lemma output_no_CR (t : text) : ~ In CR (filt t).
Proof.
  intros Hc. destruct (output_chars t CR Hc) as [H | [H _]]; discriminate.
Qed.

Lemma output_no_TAB (t : text) : ~ In TAB (filt t).
Proof.
  intros Hc. destruct (output_chars t TAB Hc) as [H | [_ H]]; [discriminate | auto].
Qed.

Lemma kept_no_LF (t l : text) : In l (kept t) -> ~ In LF l.
Proof.
  intros Hl Hc. destruct (kept_line_props t l Hl) as [_ [_ H]].
  destruct (H LF Hc) as [Hb _]. discriminate.
Qed.

(** The nonempty lines of the output are nonempty kept lines, and back. *)
Lemma output_nonempty_lines (t l : text) :
  nonempty l = true ->
  (In l (py_splitlines (filt t)) <-> In l (kept t)).
Proof.
  intros Hne.
  change (In l (py_splitlines (filt t))) with (In l (splitlines_go [] (filt t))).
  rewrite (splitlines_pieces _ [] (output_only_LF_breaks t) l Hne).
  rewrite remove_noise_eq.
  assert (E := collapse_nonempty_pieces (join_nl (kept t)) 0 []).
  cbn [repeat app] in E.
  split.
  - intros H. assert (H' : In l (filter nonempty (pieces_go [] (join_nl (kept t))))).
    { rewrite <- E. apply filter_In. split; assumption. }
    apply filter_In in H' as [H' _].
    assert (HK : kept t <> []).
    { intros E0. rewrite E0 in H'. destruct H' as [<- | []]. discriminate. }
    rewrite pieces_join in H'; [exact H' | exact HK | apply kept_no_LF].
  - intros H. assert (HK : kept t <> []) by (intros E0; rewrite E0 in H; exact H).
    assert (H' : In l (filter nonempty (pieces_go [] (join_nl (kept t))))).
    { rewrite pieces_join; [| exact HK | apply kept_no_LF].
      apply filter_In. split; assumption. }
    rewrite <- E in H'. apply filter_In in H' as [H' _]. exact H'.
Qed.

Lemma output_lines_clean (t : text) :
  forall l, In l (py_splitlines (filt t)) ->
  rstrip l = l /\ (LONG_LINE < Z.of_nat (List.length l) \/ is_noise l = false).
Proof.
  intros l Hl. destruct l as [| c l'].
  - split; [reflexivity | right; exact is_noise_nil].
  - apply (output_nonempty_lines t (c :: l') eq_refl) in Hl.
    destruct (kept_line_props t _ Hl) as [H1 [H2 _]]. split; assumption.
Qed.

Lemma long_line_kept (t raw : text) :
  In raw (py_splitlines (normalize_newlines t)) ->
  LONG_LINE < Z.of_nat (List.length (rstrip raw)) ->
  In (rstrip raw) (py_splitlines (filt t)).
Proof.
  intros Hraw Hlong.
  assert (Hne : nonempty (rstrip raw) = true).
  { destruct (rstrip raw); [cbn in Hlong; unfold LONG_LINE in Hlong; lia | reflexivity]. }
  apply (output_nonempty_lines t _ Hne).
  apply clean_lines_keep_long; assumption.
Qed.

Lemma filter_twice (t : text) : filt (filt t) = drop_trailing_LF (filt t).
Proof.
  remember (filt t) as S eqn:ES.
  rewrite remove_noise_eq.
  rewrite normalize_id by (rewrite ES; first [apply output_no_CR | apply output_no_TAB]).
  rewrite clean_lines_id by (rewrite ES; apply output_lines_clean).
  unfold py_splitlines.
  rewrite join_splitlines
    by first [rewrite ES; apply output_only_LF_breaks | intros []].
  cbn [rev app]. rewrite collapse_id; [reflexivity |].
  apply nl_runs_ok_drop. rewrite ES, remove_noise_eq. apply collapse_nl_runs_ok.
Qed.

End NoiseFilter.

(** ** collapse_newlines_to_spaces *)

Lemma flush_nl_run_no_LF (buf : text) : ~ In LF (flush_nl_run buf).
Proof.
  unfold flush_nl_run. destruct (existsb (Z.eqb LF) buf) eqn:E.
  - intros [H | []]. discriminate.
  - intros H. apply (proj1 (in_rev_iff _ _)) in H.
    assert (Hx : existsb (Z.eqb LF) buf = true)
      by (apply existsb_exists; exists LF; split; [exact H | apply Z.eqb_refl]).
    rewrite Hx in E. discriminate.
Qed.

Lemma sub_nl_no_LF (s buf : text) : ~ In LF (sub_ws_runs flush_nl_run buf s).
Proof.
  revert buf. induction s as [| c s IH]; intros buf; cbn [sub_ws_runs].
  - apply flush_nl_run_no_LF.
  - destruct (py_isspace c) eqn:Ec; [apply IH |].
    intros H. apply in_app_or in H as [H | [H | H]].
    + exact (flush_nl_run_no_LF buf H).
    + subst c. discriminate.
    + exact (IH [] H).
Qed.

Lemma flush_long_run_chars (buf : text) (x : Z) :
  In x (flush_long_run buf) -> x = SPACE \/ In x buf.
Proof.
  unfold flush_long_run. destruct (2 <=? List.length buf)%nat.
  - intros [H | []]. left. symmetry. exact H.
  - intros H. right. apply (proj1 (in_rev_iff _ _)) in H. exact H.
Qed.

Lemma sub_long_chars (s buf : text) (x : Z) :
  In x (sub_ws_runs flush_long_run buf s) -> x = SPACE \/ In x buf \/ In x s.
Proof.
  revert buf. induction s as [| c s IH]; intros buf; cbn [sub_ws_runs].
  - intros H. destruct (flush_long_run_chars buf x H); tauto.
  - destruct (py_isspace c).
    + intros H. destruct (IH (c :: buf) H) as [? | [[<- | ?] | ?]]; simpl; tauto.
    + intros H. apply in_app_or in H as [H | [H | H]].
      * destruct (flush_long_run_chars buf x H); tauto.
      * right. right. left. exact H.
      * destruct (IH [] H) as [? | [[] | ?]]; simpl; tauto.
Qed.

Lemma flush_long_run_short (buf : text) : (List.length (flush_long_run buf) <= 1)%nat.
Proof.
  unfold flush_long_run. destruct (2 <=? List.length buf)%nat eqn:E; [simpl; lia |].
  apply Nat.leb_gt in E. rewrite length_rev. lia.
Qed.

Lemma no_double_ws_cons_nonws (c : Z) (y : text) :
  py_isspace c = false -> no_double_ws (c :: y) = no_double_ws y.
Proof. intros H. destruct y as [| b y]; [reflexivity |]. cbn [no_double_ws]. rewrite H. reflexivity. Qed.

Lemma no_double_ws_short_app (x y : text) (c : Z) :
  (List.length x <= 1)%nat -> py_isspace c = false ->
  no_double_ws (x ++ c :: y) = no_double_ws y.
Proof.
  intros Hx Hc. destruct x as [| a [| b x]]; cbn in Hx; try lia.
  - apply no_double_ws_cons_nonws. exact Hc.
  - cbn [app].
    change (no_double_ws (a :: c :: y))
      with (negb (py_isspace a && py_isspace c) && no_double_ws (c :: y)).
    rewrite Hc, andb_false_r. cbn [negb andb].
    apply no_double_ws_cons_nonws. exact Hc.
Qed.

Lemma no_double_ws_short (x : text) : (List.length x <= 1)%nat -> no_double_ws x = true.
Proof. intros Hx. destruct x as [| a [| b x]]; cbn in Hx; try lia; reflexivity. Qed.

Lemma sub_long_no_double (s buf : text) :
  no_double_ws (sub_ws_runs flush_long_run buf s) = true.
Proof.
  revert buf. induction s as [| c s IH]; intros buf; cbn [sub_ws_runs].
  - apply no_double_ws_short, flush_long_run_short.
  - destruct (py_isspace c) eqn:Ec; [apply IH |].
    rewrite no_double_ws_short_app; [apply IH | apply flush_long_run_short | exact Ec].
Qed.

Lemma no_double_ws_app (x y : text) :
  no_double_ws (x ++ y) = true -> no_double_ws x = true /\ no_double_ws y = true.
Proof.
  induction x as [| a x IH]; intros H; [split; [reflexivity | exact H] |].
  destruct x as [| b x].
  - split; [reflexivity |]. destruct y as [| b y]; [reflexivity |].
    cbn [app no_double_ws] in H. apply andb_true_iff in H as [_ H]. exact H.
  - cbn [app no_double_ws] in H |- *. apply andb_true_iff in H as [H1 H2].
    destruct (IH H2) as [Hx Hy]. cbn [no_double_ws] in Hx.
    rewrite H1, Hx. split; [reflexivity | exact Hy].
Qed.

Lemma strip_infix (s : text) : exists p q, s = p ++ py_strip s ++ q.
Proof.
  unfold py_strip. destruct (lstrip_ws_suffix s) as [p Hp].
  destruct (rstrip_prefix (lstrip_ws s)) as [q Hq].
  exists p, q. rewrite <- Hq. exact Hp.
Qed.

Lemma strip_chars (s : text) (x : Z) : In x (py_strip s) -> In x s.
Proof.
  intros H. destruct (strip_infix s) as [p [q E]]. rewrite E.
  apply in_or_app. right. apply in_or_app. left. exact H.
Qed.

Lemma strip_no_double (s : text) :
  no_double_ws s = true -> no_double_ws (py_strip s) = true.
Proof.
  intros H. destruct (strip_infix s) as [p [q E]]. rewrite E in H.
  apply no_double_ws_app in H as [_ H]. apply no_double_ws_app in H as [H _]. exact H.
Qed.

Lemma lstrip_ws_length (s : text) : (List.length (lstrip_ws s) <= List.length s)%nat.
Proof.
  destruct (lstrip_ws_suffix s) as [p Hp]. rewrite Hp at 2.
  rewrite length_app. lia.
Qed.

Lemma lstrip_ws_strip (s : text) : lstrip_ws (py_strip s) = py_strip s.
Proof.
  unfold py_strip. set (v := lstrip_ws s).
  assert (Hv : lstrip_ws v = v) by apply lstrip_ws_idem.
  destruct (rstrip_prefix v) as [q Hq].
  destruct (rstrip v) as [| a r] eqn:Er; [reflexivity |].
  cbn [lstrip_ws]. destruct (py_isspace a) eqn:Ea; [| reflexivity].
  exfalso. rewrite Hq in Hv. cbn [app lstrip_ws] in Hv. rewrite Ea in Hv.
  assert (Hl := lstrip_ws_length (r ++ q)). rewrite Hv in Hl. cbn [List.length] in Hl. lia.
Qed.

Lemma sub_nl_id (s buf : text) :
  ~ In LF s -> ~ In LF buf -> sub_ws_runs flush_nl_run buf s = rev buf ++ s.
Proof.
  revert buf. induction s as [| c s IH]; intros buf Hs Hbuf; cbn [sub_ws_runs].
  - unfold flush_nl_run. rewrite app_nil_r.
    destruct (existsb (Z.eqb LF) buf) eqn:E; [| reflexivity].
    apply existsb_exists in E as [x [Hx Ex]]. apply Z.eqb_eq in Ex. subst x.
    contradiction.
  - assert (Hc : c <> LF) by (intros ->; apply Hs; left; reflexivity).
    destruct (py_isspace c).
    + rewrite IH; [cbn [rev]; rewrite <- app_assoc; reflexivity | |].
      * intros H; apply Hs; right; exact H.
      * intros [H | H]; [apply Hc; exact H | apply Hbuf; exact H].
    + rewrite IH; [| intros H; apply Hs; right; exact H | intros []].
      unfold flush_nl_run.
      destruct (existsb (Z.eqb LF) buf) eqn:E; [| reflexivity].
      apply existsb_exists in E as [x [Hx Ex]]. apply Z.eqb_eq in Ex. subst x.
      contradiction.
Qed.

Lemma sub_long_id (s : text) :
  no_double_ws s = true ->
  sub_ws_runs flush_long_run [] s = s /\
  (forall x, py_isspace x = true -> no_double_ws (x :: s) = true ->
   sub_ws_runs flush_long_run [x] s = x :: s).
Proof.
  induction s as [| c s IH]; intros H.
  - split; reflexivity.
  - assert (Hs : no_double_ws s = true)
      by (apply (no_double_ws_app [c] s) in H as [_ H']; exact H').
    destruct (IH Hs) as [IH1 IH2]. cbn [sub_ws_runs].
    destruct (py_isspace c) eqn:Ec.
    + split.
      * apply IH2; assumption.
      * intros x Hx Hn. cbn [no_double_ws] in Hn. rewrite Hx, Ec in Hn. discriminate.
    + split.
      * rewrite IH1. reflexivity.
      * intros x _ _. rewrite IH1. reflexivity.
Qed.

(** ** Front matter *)

Lemma starts_with_spec (p s : text) :
  starts_with p s = true -> s = p ++ skipn (List.length p) s.
Proof.
  revert s. induction p as [| x p IH]; intros s H; [reflexivity |].
  destruct s as [| y s]; [discriminate |].
  cbn [starts_with] in H. apply andb_prop in H as [Hxy H].
  apply Z.eqb_eq in Hxy. subst y. cbn. f_equal. apply IH. exact H.
Qed.

Lemma split_once_spec (sep s a b : text) :
  split_once sep s = Some (a, b) -> s = a ++ sep ++ b.
Proof.
  revert a b. induction s as [| c s IH]; intros a b H; cbn [split_once] in H.
  - destruct (starts_with sep []) eqn:Es; [| discriminate].
    injection H as <- <-. apply starts_with_spec. exact Es.
  - destruct (starts_with sep (c :: s)) eqn:Es.
    + injection H as <- <-. apply starts_with_spec. exact Es.
    + destruct (split_once sep s) as [[a' b'] |] eqn:E2; [| discriminate].
      injection H as <- <-. rewrite (IH a' b' eq_refl). reflexivity.
Qed.

Lemma split_once_step (sep : text) (c : Z) (s : text) :
  starts_with sep (c :: s) = false ->
  split_once sep (c :: s) =
  match split_once sep s with Some (a, b) => Some (c :: a, b) | None => None end.
Proof. intros H. cbn [split_once]. rewrite H. reflexivity. Qed.

Lemma split_once_noLF (x b : text) :
  ~ In LF x -> split_once FM_DELIM (x ++ FM_DELIM ++ b) = Some (x, b).
Proof.
  induction x as [| c x IH]; intros Hx; [reflexivity |].
  cbn [app]. rewrite split_once_step.
  - rewrite IH; [reflexivity | intros H; apply Hx; right; exact H].
  - cbn [starts_with FM_DELIM]. destruct (Z.eqb_spec LF c) as [E | _]; [| reflexivity].
    exfalso. apply Hx. left. symmetry. exact E.
Qed.

Lemma pieces_go_app_LF (a cur X : text) :
  exists p pre, pieces_go cur (a ++ LF :: X) = p :: pre ++ pieces_go [] X.
Proof.
  revert cur. induction a as [| c a IH]; intros cur.
  - exists (rev cur), []. cbn [app pieces_go]. rewrite Zeqb_refl_true. reflexivity.
  - cbn [app pieces_go]. destruct (c =? LF).
    + destruct (IH []) as [p [pre E]]. rewrite E. exists (rev cur), (p :: pre). reflexivity.
    + apply IH.
Qed.

Lemma strip_front_matter_closed (safe_load : text -> option pyval) (t : text) :
  (forall l, In l (tl (pieces_go [] t)) -> l <> DASHES) ->
  strip_and_parse_front_matter safe_load t = (t, PyDict []).
Proof.
  intros Hno. unfold strip_and_parse_front_matter.
  destruct (starts_with DASHES t); [| reflexivity].
  destruct (split_once FM_DELIM t) as [[a b] |] eqn:E; [exfalso | reflexivity].
  apply split_once_spec in E. unfold FM_DELIM in E. cbn [app] in E.
  destruct (pieces_go_app_LF a [] (45 :: 45 :: 45 :: LF :: b)) as [p [pre Ep]].
  apply (Hno DASHES); [| reflexivity].
  rewrite E, Ep. cbn [tl]. apply in_or_app. right. left. reflexivity.
Qed.

Lemma strip_front_matter_doc (safe_load : text -> option pyval) (key value body : text) :
  ~ In LF key -> ~ In LF value -> hd 0 key <> 45 ->
  strip_and_parse_front_matter safe_load (fm_doc key value body) =
  (body, load_front_matter safe_load (key ++ [58; 32] ++ value)).
Proof.
  intros Hk Hv Hd.
  remember (key ++ [58; 32] ++ value) as kv eqn:Ekv.
  assert (Hkv : ~ In LF kv).
  { rewrite Ekv. intros H. apply in_app_or in H as [H | [H | [H | H]]];
      [apply Hk; exact H | discriminate | discriminate | apply Hv; exact H]. }
  assert (Hc : exists c r, kv = c :: r /\ c <> LF /\ c <> 45).
  { destruct key as [| k key'].
    - exists 58, ([32] ++ value). rewrite Ekv. split; [reflexivity | split; discriminate].
    - exists k, (key' ++ [58; 32] ++ value). rewrite Ekv. split; [reflexivity |].
      split; [intros E; apply Hk; left; rewrite E; reflexivity | exact Hd]. }
  assert (E : fm_doc key value body = 45 :: 45 :: 45 :: LF :: kv ++ FM_DELIM ++ body).
  { unfold fm_doc. rewrite Ekv. rewrite <- !app_assoc. reflexivity. }
  rewrite E. clear E. destruct Hc as [c [r [Ec [HcLF Hc45]]]].
  unfold strip_and_parse_front_matter. cbn [starts_with DASHES]. cbn -[split_once FM_DELIM].
  rewrite !split_once_step by reflexivity.
  rewrite split_once_step.
  - rewrite split_once_noLF by exact Hkv. cbn -[load_front_matter].
    rewrite Ec. cbn -[load_front_matter].
    replace (c =? 45) with false by (symmetry; apply Z.eqb_neq; exact Hc45).
    replace (c =? LF) with false by (symmetry; apply Z.eqb_neq; exact HcLF).
    reflexivity.
  - rewrite Ec. cbn [starts_with FM_DELIM app]. rewrite Zeqb_refl_true.
    replace (45 =? c) with false
      by (symmetry; apply Z.eqb_neq; intros H; apply Hc45; symmetry; exact H).
    reflexivity.
Qed.

(** ** extract_endpoint *)

Lemma endpoint_calls extract extract_metadata safe_load url trim_newlines status html :
  is_success status = true ->
  snd (extract_endpoint extract extract_metadata safe_load url trim_newlines
         (Fetched status html)) =
  if extracted_empty (extract html first_attempt_opts)
  then [first_attempt_opts; retry_opts] else [first_attempt_opts].
Proof.
  intros Hs. unfold extract_endpoint. rewrite Hs. cbn [negb].
  destruct (extracted_empty (extract html first_attempt_opts)); cbn [negb fst snd];
    repeat match goal with
           | |- context [match ?x with _ => _ end] => destruct x
           end; reflexivity.
Qed.

(** C1: a successful response comes from a successful fetch and a
    non-empty extraction (first attempt, or the retry after an empty
    first attempt); its [text] is that extraction after front-matter
    stripping, noise filtering and, with [trim_newlines], whitespace
    collapsing, and that text may be empty. *)
Theorem extract_endpoint_ok_text extract extract_metadata safe_load url trim_newlines fetch
  title body source published_at site :
  fst (extract_endpoint extract extract_metadata safe_load url trim_newlines fetch) =
    Ok title body source published_at site ->
  exists status html t,
    fetch = Fetched status html /\ is_success status = true /\ t <> [] /\
    (extract html first_attempt_opts = Some t \/
     (extracted_empty (extract html first_attempt_opts) = true /\
      extract html retry_opts = Some t)) /\
    source = url /\
    body = (let t' := remove_noise_lines_safe_only
                        (fst (strip_and_parse_front_matter safe_load t)) in
            if trim_newlines then collapse_newlines_to_spaces t' else t').
Proof.
  intros H. destruct fetch as [status html |]; [| discriminate H].
  unfold extract_endpoint in H.
  destruct (is_success status) eqn:Es; cbn [negb] in H; [| discriminate H].
  destruct (extracted_empty (extract html first_attempt_opts)) eqn:E1;
    cbn [negb fst snd] in H;
    [destruct (extract html retry_opts) as [t |] eqn:Et
    | destruct (extract html first_attempt_opts) as [t |] eqn:Et];
    try discriminate H;
    (destruct (Nat.eqb_spec (List.length t) 0) as [Hl | Hl]; [discriminate H |]);
    destruct (strip_and_parse_front_matter safe_load t) as [t1 fm] eqn:Ef;
    cbv zeta in H;
    (match type of H with
     | context [merge_meta ?m ?f] => destruct (merge_meta m f) as [[[ti pa] si] |]
     end; [| discriminate H]);
    cbn [fst] in H; injection H as <- <- <- <- <-;
    (exists status, html, t; split; [reflexivity |]; split; [exact Es |];
     split; [intros E; apply Hl; rewrite E; reflexivity |]);
    (split; [first [left; exact Et | right; split; [exact E1 | exact Et]] |]);
    (split; [reflexivity |]); rewrite Ef; reflexivity.
Qed.

Lemma safe_noise_line_nil : safe_noise_line [] = false.
Proof. vm_compute. reflexivity. Qed.

Lemma merge_meta_dict (md d : list (pyval * pyval)) :
  merge_meta md (PyDict d) =
  Some (dict_get md (s2z "title"),
        py_or (dict_get md (s2z "date"))
          (py_or (dict_get d (s2z "date")) (dict_get d (s2z "published_at"))),
        py_or (dict_get md (s2z "sitename"))
          (py_or (dict_get d (s2z "site")) (dict_get md (s2z "hostname")))).
Proof.
  unfold merge_meta, py_or. cbv zeta. cbn [pyval_get].
  destruct (py_truthy (dict_get md (s2z "date")));
  destruct (py_truthy (dict_get d (s2z "date")));
  destruct (py_truthy (dict_get md (s2z "sitename")));
  destruct (py_truthy (dict_get d (s2z "site"))); reflexivity.
Qed.

(** * Properties of the endpoint and its helpers *)

(** C1: a whitespace-only extraction gives a successful response whose
    [text] is empty. *)
Lemma blank_extraction_empty_text :
  fst (extract_endpoint blank_extractor no_metadata yaml_raises example_url false
         (Fetched 200 example_html)) =
  Ok PyNone [] example_url PyNone PyNone.
Proof. vm_compute. reflexivity. Qed.

Lemma extract_endpoint_ok_text_witness :
  fst (extract_endpoint blank_extractor no_metadata yaml_raises example_url false
         (Fetched 200 example_html)) = Ok PyNone [] example_url PyNone PyNone /\
  exists status html t,
    Fetched 200 example_html = Fetched status html /\ is_success status = true /\
    t <> [] /\
    (blank_extractor html first_attempt_opts = Some t \/
     (extracted_empty (blank_extractor html first_attempt_opts) = true /\
      blank_extractor html retry_opts = Some t)) /\
    example_url = example_url /\
    [] = (let t' := remove_noise_lines_safe_only
                      (fst (strip_and_parse_front_matter yaml_raises t)) in
          if false then collapse_newlines_to_spaces t' else t').
Proof.
  assert (H : fst (extract_endpoint blank_extractor no_metadata yaml_raises example_url
                     false (Fetched 200 example_html)) =
              Ok PyNone [] example_url PyNone PyNone) by (vm_compute; reflexivity).
  split; [exact H |].
  exact (extract_endpoint_ok_text blank_extractor no_metadata yaml_raises example_url
           false (Fetched 200 example_html) PyNone [] example_url PyNone PyNone H).
Defined.

(** C2: after an empty first attempt, the endpoint makes exactly two
    [extract] calls: the fast one excluding comments and tables, then one
    with [fast=False] and trafilatura's defaults for comments and tables
    (both included); when the retry is empty too the answer is 422. *)
Theorem extract_retry_profile extract extract_metadata safe_load url trim_newlines
  status html :
  is_success status = true ->
  extracted_empty (extract html first_attempt_opts) = true ->
  snd (extract_endpoint extract extract_metadata safe_load url trim_newlines
         (Fetched status html)) = [first_attempt_opts; retry_opts] /\
  include_comments first_attempt_opts = false /\
  include_tables first_attempt_opts = false /\ fast first_attempt_opts = true /\
  include_comments retry_opts = true /\ include_tables retry_opts = true /\
  fast retry_opts = false /\
  (extracted_empty (extract html retry_opts) = true ->
   fst (extract_endpoint extract extract_metadata safe_load url trim_newlines
          (Fetched status html)) = HTTPError 422).
Proof.
  intros Hs He. split.
  { rewrite endpoint_calls by exact Hs. rewrite He. reflexivity. }
  do 6 (split; [reflexivity |]).
  intros Hr. unfold extract_endpoint. rewrite Hs, He. cbn [negb fst snd].
  destruct (extract html retry_opts) as [t |]; [| reflexivity].
  cbn in Hr. rewrite Hr. reflexivity.
Qed.

Lemma extract_retry_profile_witness :
  is_success 200 = true /\
  extracted_empty (extractor_fast_empty [] example_html first_attempt_opts) = true /\
  snd (extract_endpoint (extractor_fast_empty []) no_metadata yaml_raises example_url
         false (Fetched 200 example_html)) = [first_attempt_opts; retry_opts].
Proof.
  assert (H1 : is_success 200 = true) by reflexivity.
  assert (H2 : extracted_empty (extractor_fast_empty [] example_html first_attempt_opts)
               = true) by reflexivity.
  split; [exact H1 | split; [exact H2 |]].
  exact (proj1 (extract_retry_profile (extractor_fast_empty []) no_metadata yaml_raises
                  example_url false 200 example_html H1 H2)).
Defined.

(** C3: a line of more than 5000 letters followed by a space is not
    returned verbatim: its trailing space is removed. *)
Lemma long_line_not_verbatim :
  LONG_LINE < Z.of_nat (List.length long_line_example) /\
  py_splitlines (normalize_newlines long_line_example) = [long_line_example] /\
  ~ In long_line_example
      (py_splitlines (remove_noise_lines_safe_only long_line_example)).
Proof.
  split; [vm_compute; reflexivity |]. split; [vm_compute; reflexivity |].
  assert (E : py_splitlines (remove_noise_lines_safe_only long_line_example)
              = [repeat 97%Z 5001]) by (vm_compute; reflexivity).
  rewrite E. intros [H | []].
  apply (f_equal (@List.length Z)) in H. unfold long_line_example in H.
  rewrite length_app, !repeat_length in H. cbn in H. lia.
Qed.

(** C3: every line of the input (after tab and carriage-return
    normalisation) whose right-stripped form is longer than 5000
    characters is an output line in that right-stripped form, whatever
    its content. *)
Theorem long_line_kept_rstripped (t raw : text) :
  In raw (py_splitlines (normalize_newlines t)) ->
  LONG_LINE < Z.of_nat (List.length (rstrip raw)) ->
  In (rstrip raw) (py_splitlines (remove_noise_lines_safe_only t)).
Proof. exact (long_line_kept safe_noise_line t raw). Qed.

Lemma long_line_kept_rstripped_witness :
  In long_line_example (py_splitlines (normalize_newlines long_line_example)) /\
  LONG_LINE < Z.of_nat (List.length (rstrip long_line_example)) /\
  In (rstrip long_line_example)
    (py_splitlines (remove_noise_lines_safe_only long_line_example)).
Proof.
  assert (H1 : In long_line_example (py_splitlines (normalize_newlines long_line_example)))
    by (vm_compute; left; reflexivity).
  assert (H2 : LONG_LINE < Z.of_nat (List.length (rstrip long_line_example)))
    by (vm_compute; reflexivity).
  split; [exact H1 | split; [exact H2 |]].
  exact (long_line_kept_rstripped long_line_example long_line_example H1 H2).
Defined.

(** C4: with PyYAML, ["k: 1"] loads as [{'k': 1}]: the value is an
    integer, not the string ["1"]. *)
Lemma front_matter_typed_value :
  strip_and_parse_front_matter pyyaml_examples (fm_doc (s2z "k") (s2z "1") (s2z "B")) =
    (s2z "B", PyDict [(PyStr (s2z "k"), PyInt 1)]) /\
  strip_and_parse_front_matter pyyaml_examples (fm_doc (s2z "k") (s2z "1") (s2z "B")) <>
    (s2z "B", PyDict [(PyStr (s2z "k"), PyStr (s2z "1"))]).
Proof.
  split; [vm_compute; reflexivity |].
  vm_compute. intros H. inversion H.
Qed.

(** C4: for a key and a value without newline, the key not starting
    with '-', the splitter returns the body and the (truthy) result of
    [yaml.safe_load] on ["key: value"], or [{}] when that raises or is
    falsy; for a text none of whose lines after the first is ["---"],
    it returns the text unchanged with [{}]. *)
Theorem front_matter_round_trip (safe_load : text -> option pyval)
  (key value body t : text) :
  (~ In LF key -> ~ In LF value -> hd 0 key <> 45 ->
   strip_and_parse_front_matter safe_load (fm_doc key value body) =
   (body, load_front_matter safe_load (key ++ [58; 32] ++ value))) /\
  ((forall l, In l (tl (pieces_go [] t)) -> l <> DASHES) ->
   strip_and_parse_front_matter safe_load t = (t, PyDict [])).
Proof.
  split.
  - apply strip_front_matter_doc.
  - apply strip_front_matter_closed.
Qed.

Lemma front_matter_round_trip_witness :
  strip_and_parse_front_matter pyyaml_examples (fm_doc (s2z "k") (s2z "1") (s2z "B")) =
    (s2z "B", PyDict [(PyStr (s2z "k"), PyInt 1)]) /\
  strip_and_parse_front_matter pyyaml_examples (DASHES ++ LF :: s2z "body") =
    (DASHES ++ LF :: s2z "body", PyDict []).
Proof.
  destruct (front_matter_round_trip pyyaml_examples (s2z "k") (s2z "1") (s2z "B")
              (DASHES ++ LF :: s2z "body")) as [H1 H2].
  split.
  - rewrite H1.
    + vm_compute. reflexivity.
    + vm_compute. intros [H | []]. discriminate H.
    + vm_compute. intros [H | []]. discriminate H.
    + vm_compute. intros H. discriminate H.
  - apply H2. vm_compute. intros l [H | []]. rewrite <- H. discriminate.
Defined.

(** C5: a front-matter block holding a plain scalar makes the splitter
    return that scalar (a [str], not a mapping), and the endpoint then
    fails on [fm.get] with an internal error. *)
Theorem front_matter_scalar_not_mapping :
  strip_and_parse_front_matter pyyaml_examples scalar_fm_doc =
    (s2z "body", PyStr (s2z "hello")) /\
  fst (extract_endpoint (fun _ _ => Some scalar_fm_doc) no_metadata pyyaml_examples
         example_url false (Fetched 200 example_html)) = ServerError.
Proof. split; vm_compute; reflexivity. Qed.

(** C6: a non-success upstream status gives an error with that status and
    a request error gives 504, with no [extract] call, whatever the
    collaborators. *)
Theorem fetch_errors_before_extraction extract extract_metadata safe_load url
  trim_newlines status html :
  is_success status = false ->
  extract_endpoint extract extract_metadata safe_load url trim_newlines
    (Fetched status html) = (HTTPError status, []) /\
  extract_endpoint extract extract_metadata safe_load url trim_newlines RequestError =
    (HTTPError 504, []).
Proof.
  intros Hs. unfold extract_endpoint. rewrite Hs. split; reflexivity.
Qed.

Lemma fetch_errors_before_extraction_witness :
  is_success 404 = false /\
  extract_endpoint blank_extractor no_metadata yaml_raises example_url false
    (Fetched 404 example_html) = (HTTPError 404, []).
Proof.
  assert (H : is_success 404 = false) by reflexivity.
  split; [exact H |].
  exact (proj1 (fetch_errors_before_extraction blank_extractor no_metadata yaml_raises
                  example_url false 404 example_html H)).
Defined.

(** C7: on ["a\n\n"] the filter returns ["a\n"], and on that ["a"]. *)
Lemma filter_not_idempotent :
  remove_noise_lines_safe_only trailing_blank_example = s2z "a" ++ [LF] /\
  remove_noise_lines_safe_only (remove_noise_lines_safe_only trailing_blank_example)
    = s2z "a".
Proof. split; vm_compute; reflexivity. Qed.

(** C7: filtering twice gives the once-filtered text without its final
    newline, if it has one; so the two agree whenever the once-filtered
    text does not end in a newline. *)
Theorem filter_twice_drops_final_newline (t : text) :
  remove_noise_lines_safe_only (remove_noise_lines_safe_only t) =
    drop_trailing_LF (remove_noise_lines_safe_only t) /\
  ((forall s, remove_noise_lines_safe_only t <> s ++ [LF]) ->
   remove_noise_lines_safe_only (remove_noise_lines_safe_only t) =
   remove_noise_lines_safe_only t).
Proof.
  pose proof (filter_twice safe_noise_line safe_noise_line_nil t) as E.
  change (remove_noise_lines_with safe_noise_line) with remove_noise_lines_safe_only in E.
  split; [exact E |]. intros Hn. rewrite E.
  destruct (drop_trailing_LF_cases (remove_noise_lines_safe_only t)) as [H | H];
    [exact H | exfalso; exact (Hn _ H)].
Qed.

Lemma filter_twice_drops_final_newline_witness :
  (forall s, remove_noise_lines_safe_only (s2z "a") <> s ++ [LF]) /\
  remove_noise_lines_safe_only (remove_noise_lines_safe_only (s2z "a")) =
  remove_noise_lines_safe_only (s2z "a").
Proof.
  assert (H : forall s, remove_noise_lines_safe_only (s2z "a") <> s ++ [LF]).
  { intros s Hs. vm_compute in Hs.
    apply (f_equal (@rev Z)) in Hs. rewrite rev_app_distr in Hs. discriminate Hs. }
  split; [exact H |].
  exact (proj2 (filter_twice_drops_final_newline (s2z "a")) H).
Defined.

(** C8: the collapser is idempotent, and its output has no ["\n"] and no
    two adjacent spaces. *)
Theorem collapse_idempotent_flat (s : text) :
  collapse_newlines_to_spaces (collapse_newlines_to_spaces s) =
    collapse_newlines_to_spaces s /\
  ~ In LF (collapse_newlines_to_spaces s) /\
  ~ (exists a b, collapse_newlines_to_spaces s = a ++ SPACE :: SPACE :: b).
Proof.
  assert (Hnl : ~ In LF (collapse_newlines_to_spaces s)).
  { unfold collapse_newlines_to_spaces. cbv zeta. intros H.
    apply strip_chars in H. apply sub_long_chars in H as [H | [H | H]].
    - discriminate H.
    - destruct H.
    - exact (sub_nl_no_LF s [] H). }
  assert (Hnd : no_double_ws (collapse_newlines_to_spaces s) = true).
  { unfold collapse_newlines_to_spaces. cbv zeta.
    apply strip_no_double, sub_long_no_double. }
  split; [| split; [exact Hnl |]].
  - set (u := collapse_newlines_to_spaces s) in *.
    unfold collapse_newlines_to_spaces at 1. cbv zeta.
    rewrite (sub_nl_id u [] Hnl (fun H => H)).
    cbn [rev app]. rewrite (proj1 (sub_long_id u Hnd)).
    unfold u, collapse_newlines_to_spaces. cbv zeta.
    set (w := sub_ws_runs flush_long_run [] (sub_ws_runs flush_nl_run [] s)).
    unfold py_strip at 1. rewrite (lstrip_ws_strip w).
    unfold py_strip. apply rstrip_idem.
  - intros [a [b Hab]]. rewrite Hab in Hnd.
    apply no_double_ws_app in Hnd as [_ Hnd]. discriminate Hnd.
Qed.

(** C9: an empty [date] from the HTML metadata does not hide the front
    matter's [date], and an empty [published_at] in the front matter is
    returned as is, not as null. *)
Lemma merge_meta_falsy_values :
  merge_meta [(PyStr (s2z "date"), PyStr [])]
    (PyDict [(PyStr (s2z "date"), PyStr (s2z "2024-02-02"))]) =
    Some (PyNone, PyStr (s2z "2024-02-02"), PyNone) /\
  merge_meta [] (PyDict [(PyStr (s2z "published_at"), PyStr [])]) =
    Some (PyNone, PyStr [], PyNone).
Proof. split; vm_compute; reflexivity. Qed.

(** C9: with a front matter that is a mapping, [title] is the metadata's
    [title]; [published_at] and [site] are the first truthy value of
    their chain, else the value of the chain's last source, which is
    null only when that key is absent or null. *)
Theorem merge_meta_precedence (md d : list (pyval * pyval)) :
  merge_meta md (PyDict d) =
  Some (dict_get md (s2z "title"),
        py_or (dict_get md (s2z "date"))
          (py_or (dict_get d (s2z "date")) (dict_get d (s2z "published_at"))),
        py_or (dict_get md (s2z "sitename"))
          (py_or (dict_get d (s2z "site")) (dict_get md (s2z "hostname")))).
Proof. apply merge_meta_dict. Qed.

(** C10: every output line of the filter is right-stripped and is either
    longer than 5000 characters or matches no noise pattern; a noise line
    padded to 5001 characters with trailing spaces is removed, so the
    length guard reads the right-stripped line. *)
Theorem filter_lines_rstripped (t : text) :
  (forall l, In l (py_splitlines (remove_noise_lines_safe_only t)) ->
   rstrip l = l /\
   (LONG_LINE < Z.of_nat (List.length l) \/ safe_noise_line l = false)) /\
  (LONG_LINE < Z.of_nat (List.length padded_email_line) /\
   remove_noise_lines_safe_only padded_email_line = []).
Proof.
  split.
  - exact (output_lines_clean safe_noise_line safe_noise_line_nil t).
  - split; vm_compute; reflexivity.
Qed.

Lemma filter_lines_rstripped_witness :
  In (s2z "a") (py_splitlines (remove_noise_lines_safe_only (s2z "a"))) /\
  rstrip (s2z "a") = s2z "a".
Proof.
  assert (H : In (s2z "a") (py_splitlines (remove_noise_lines_safe_only (s2z "a"))))
    by (vm_compute; left; reflexivity).
  split; [exact H |].
  exact (proj1 (proj1 (filter_lines_rstripped (s2z "a")) (s2z "a") H)).
Defined.

(** * Further properties *)

(** ** API keys (app/main.py) *)

Lemma split_go_chars (sep : Z) (s cur p : text) (c : Z) :
  ~ In sep cur -> In p (split_go sep cur s) -> In c p -> c <> sep /\ (In c cur \/ In c s).
Proof.
  revert cur. induction s as [| x s IH]; intros cur Hcur Hp Hc.
  - destruct Hp as [<- | []]. apply (proj1 (in_rev_iff _ _)) in Hc.
    split; [intros E; apply Hcur; rewrite <- E; exact Hc | left; exact Hc].
  - cbn [split_go] in Hp. destruct (Z.eqb_spec x sep) as [Ex | Ex].
    + destruct Hp as [<- | Hp].
      * apply (proj1 (in_rev_iff _ _)) in Hc.
        split; [intros E; apply Hcur; rewrite <- E; exact Hc | left; exact Hc].
      * destruct (IH [] (fun H => H) Hp Hc) as [H1 H2].
        split; [exact H1 |]. right; right. destruct H2 as [H2 | H2]; [destruct H2 | exact H2].
    + assert (Hcur' : ~ In sep (x :: cur)).
      { intros [H | H]; [apply Ex; exact H | contradiction]. }
      destruct (IH (x :: cur) Hcur' Hp Hc) as [H1 [[H2 | H2] | H2]]; split; try exact H1.
      * right; left; exact H2.
      * left; exact H2.
      * right; right; exact H2.
Qed.

Lemma split_go_cover (sep : Z) (s cur : text) (c : Z) :
  In c cur \/ In c s -> c = sep \/ exists p, In p (split_go sep cur s) /\ In c p.
Proof.
  revert cur. induction s as [| x s IH]; intros cur Hc.
  - destruct Hc as [Hc | []]. right. exists (rev cur).
    split; [left; reflexivity | apply (proj2 (in_rev_iff _ _)); exact Hc].
  - cbn [split_go]. destruct (Z.eqb_spec x sep) as [Ex | Ex].
    + destruct Hc as [Hc | [-> | Hc]].
      * right. exists (rev cur). split; [left; reflexivity | apply (proj2 (in_rev_iff _ _)); exact Hc].
      * left; exact Ex.
      * destruct (IH [] (or_intror Hc)) as [H | [p [Hp Hcp]]]; [left; exact H |].
        right. exists p. split; [right; exact Hp | exact Hcp].
    + apply IH. destruct Hc as [Hc | [-> | Hc]].
      * left; right; exact Hc.
      * left; left; reflexivity.
      * right; exact Hc.
Qed.

Lemma split_go_noSep (sep : Z) (x cur : text) :
  ~ In sep x -> split_go sep cur x = [rev cur ++ x].
Proof.
  revert cur. induction x as [| c x IH]; intros cur Hx.
  - rewrite app_nil_r. reflexivity.
  - cbn [split_go]. destruct (Z.eqb_spec c sep) as [-> | _]; [exfalso; apply Hx; left; reflexivity |].
    rewrite IH by (intros H; apply Hx; right; exact H).
    cbn [rev]. rewrite <- app_assoc. reflexivity.
Qed.

Lemma split_go_sep (sep : Z) (x y cur : text) :
  ~ In sep x -> split_go sep cur (x ++ sep :: y) = (rev cur ++ x) :: split_go sep [] y.
Proof.
  revert cur. induction x as [| c x IH]; intros cur Hx.
  - cbn [app split_go]. rewrite Zeqb_refl_true, app_nil_r. reflexivity.
  - cbn [app split_go]. destruct (Z.eqb_spec c sep) as [-> | _]; [exfalso; apply Hx; left; reflexivity |].
    rewrite IH by (intros H; apply Hx; right; exact H).
    cbn [rev]. rewrite <- app_assoc. reflexivity.
Qed.

Lemma split_join_sep (sep : Z) (K : list text) :
  K <> [] -> (forall l, In l K -> ~ In sep l) -> py_split_char sep (join_sep sep K) = K.
Proof.
  unfold py_split_char. induction K as [| x K IH]; intros Hne HK; [contradiction |].
  destruct K as [| y K].
  - cbn [join_sep]. apply split_go_noSep. apply HK. left. reflexivity.
  - change (join_sep sep (x :: y :: K)) with (x ++ sep :: join_sep sep (y :: K)).
    rewrite split_go_sep by (apply HK; left; reflexivity).
    rewrite IH; [reflexivity | discriminate |].
    intros l Hl. apply HK. right. exact Hl.
Qed.

Lemma py_strip_idem (s : text) : py_strip (py_strip s) = py_strip s.
Proof.
  unfold py_strip at 1. rewrite lstrip_ws_strip. unfold py_strip. apply rstrip_idem.
Qed.

Lemma lstrip_ws_nil (s : text) :
  lstrip_ws s = [] <-> (forall c, In c s -> py_isspace c = true).
Proof.
  induction s as [| c s IH]; cbn [lstrip_ws].
  - split; [intros _ c [] | reflexivity].
  - destruct (py_isspace c) eqn:Ec.
    + rewrite IH. split.
      * intros H x [<- | Hx]; [exact Ec | apply H; exact Hx].
      * intros H x Hx. apply H. right. exact Hx.
    + split; [discriminate |]. intros H. rewrite (H c (or_introl eq_refl)) in Ec. discriminate.
Qed.

Lemma lstrip_ws_all_space (s : text) :
  (forall c, In c (lstrip_ws s) -> py_isspace c = true) ->
  (forall c, In c s -> py_isspace c = true).
Proof.
  induction s as [| x s IH]; cbn [lstrip_ws]; intros H c Hc; [destruct Hc |].
  destruct (py_isspace x) eqn:Ex.
  - destruct Hc as [<- | Hc]; [exact Ex | apply IH; assumption].
  - apply H. exact Hc.
Qed.

Lemma py_strip_nil (s : text) :
  py_strip s = [] <-> (forall c, In c s -> py_isspace c = true).
Proof.
  unfold py_strip, rstrip. split.
  - intros H. apply lstrip_ws_all_space.
    assert (H' : lstrip_ws (rev (lstrip_ws s)) = []).
    { rewrite <- (rev_involutive (lstrip_ws (rev (lstrip_ws s)))), H. reflexivity. }
    pose proof (proj1 (lstrip_ws_nil _) H') as H2. intros c Hc. apply H2. apply (proj2 (in_rev_iff _ _)). exact Hc.
  - intros H. rewrite (proj2 (lstrip_ws_nil s) H). reflexivity.
Qed.

Lemma api_keys_of_in (P : list text) (k : text) :
  In k (api_keys_of P) -> exists p, In p P /\ k = py_strip p /\ nonempty k = true.
Proof.
  induction P as [| p P IH]; cbn [api_keys_of]; [intros [] |].
  destruct (nonempty (py_strip p)) eqn:E.
  - intros [<- | Hk].
    + exists p. split; [left; reflexivity | split; [reflexivity | exact E]].
    + destruct (IH Hk) as [q [Hq Hkq]]. exists q. split; [right; exact Hq | exact Hkq].
  - intros Hk. destruct (IH Hk) as [q [Hq Hkq]]. exists q. split; [right; exact Hq | exact Hkq].
Qed.

Lemma api_keys_of_nil (P : list text) :
  api_keys_of P = [] <-> (forall p, In p P -> py_strip p = []).
Proof.
  induction P as [| p P IH]; cbn [api_keys_of].
  - split; [intros _ p [] | reflexivity].
  - destruct (py_strip p) as [| c r] eqn:E; cbn [nonempty].
    + rewrite IH. split.
      * intros H q [<- | Hq]; [exact E | apply H; exact Hq].
      * intros H q Hq. apply H. right. exact Hq.
    + split; [discriminate |]. intros H. rewrite (H p (or_introl eq_refl)) in E. discriminate.
Qed.

Lemma api_keys_of_id (K : list text) :
  (forall k, In k K -> nonempty k = true /\ py_strip k = k) -> api_keys_of K = K.
Proof.
  induction K as [| k K IH]; intros HK; [reflexivity |]. cbn [api_keys_of].
  destruct (HK k (or_introl eq_refl)) as [Hn Hs]. rewrite Hs, Hn.
  rewrite IH; [reflexivity |]. intros x Hx. apply HK. right. exact Hx.
Qed.

Lemma text_eqb_spec (a b : text) : text_eqb a b = true <-> a = b.
Proof.
  revert b. induction a as [| x a IH]; intros [| y b]; cbn [text_eqb];
    try (split; [discriminate | intros H; discriminate H]).
  - split; reflexivity.
  - rewrite andb_true_iff, Z.eqb_eq, IH. split.
    + intros [-> ->]. reflexivity.
    + intros H. injection H as -> ->. split; reflexivity.
Qed.

Lemma existsb_text_eqb (h : text) (keys : list text) :
  existsb (text_eqb h) keys = true <-> In h keys.
Proof.
  rewrite existsb_exists. split.
  - intros [k [Hk E]]. apply text_eqb_spec in E. subst k. exact Hk.
  - intros Hh. exists h. split; [exact Hh | apply text_eqb_spec; reflexivity].
Qed.

Lemma check_keys_ascii (h : text) (keys : list text) :
  is_ascii h = true -> (forall k, In k keys -> is_ascii k = true) ->
  check_keys h keys = if existsb (text_eqb h) keys then AuthOk else Unauthorized.
Proof.
  intros Hh. induction keys as [| k ks IH]; intros Hk; [reflexivity |].
  cbn [check_keys existsb]. unfold compare_digest.
  rewrite Hh, (Hk k (or_introl eq_refl)). cbn [andb].
  destruct (text_eqb h k); [reflexivity |].
  apply IH. intros x Hx. apply Hk. right. exact Hx.
Qed.


(** The API keys loaded at start-up are non-empty, carry no surrounding
    whitespace and contain no comma. *)
Theorem load_api_keys_clean (env : option text) (keys : list text) :
  load_api_keys env = Some keys ->
  keys <> [] /\ forall k, In k keys -> k <> [] /\ py_strip k = k /\ ~ In COMMA k.
Proof.
  unfold load_api_keys. cbv zeta.
  set (raw := match env with Some r => r | None => [] end).
  destruct (api_keys_of (py_split_char COMMA raw)) as [| k0 ks] eqn:E; [discriminate |].
  intros H. injection H as <-. split; [discriminate |].
  intros k Hk. rewrite <- E in Hk.
  apply api_keys_of_in in Hk as [p [Hp [-> Hn]]].
  split; [intros Hnil; rewrite Hnil in Hn; discriminate Hn |].
  split; [apply py_strip_idem |].
  intros Hc. apply strip_chars in Hc.
  destruct (split_go_chars COMMA raw [] p COMMA (fun H => H) Hp Hc) as [Hne _].
  apply Hne. reflexivity.
Qed.

Lemma load_api_keys_clean_witness :
  load_api_keys (Some (s2z " a , ,b,")) = Some [s2z "a"; s2z "b"] /\ s2z "a" <> [].
Proof.
  assert (H : load_api_keys (Some (s2z " a , ,b,")) = Some [s2z "a"; s2z "b"])
    by (vm_compute; reflexivity).
  split; [exact H |].
  exact (proj1 (proj2 (load_api_keys_clean _ _ H) (s2z "a") (or_introl eq_refl))).
Defined.

(** Start-up fails ([RuntimeError]) exactly when [API_KEYS] is unset or
    made only of commas and whitespace. *)
Theorem load_api_keys_fails (raw : text) :
  load_api_keys None = None /\
  (load_api_keys (Some raw) = None <->
   (forall c, In c raw -> c = COMMA \/ py_isspace c = true)).
Proof.
  split; [reflexivity |].
  assert (Hk : api_keys_of (py_split_char COMMA raw) = [] <->
               (forall c, In c raw -> c = COMMA \/ py_isspace c = true)).
  { rewrite api_keys_of_nil. split.
    - intros H c Hc.
      destruct (split_go_cover COMMA raw [] c (or_intror Hc)) as [E | [p [Hp Hcp]]];
        [left; exact E | right].
      exact (proj1 (py_strip_nil p) (H p Hp) c Hcp).
    - intros H p Hp. apply py_strip_nil. intros c Hc.
      destruct (split_go_chars COMMA raw [] p c (fun H => H) Hp Hc) as [Hne [[] | Hr]].
      destruct (H c Hr) as [E | E]; [contradiction | exact E]. }
  rewrite <- Hk. unfold load_api_keys. cbv zeta.
  destruct (api_keys_of (py_split_char COMMA raw)); split; congruence.
Qed.

(** Joining non-empty, stripped, comma-free keys with commas gives back
    exactly those keys. *)
Theorem load_api_keys_join (keys : list text) :
  keys <> [] ->
  (forall k, In k keys -> k <> [] /\ py_strip k = k /\ ~ In COMMA k) ->
  load_api_keys (Some (join_sep COMMA keys)) = Some keys.
Proof.
  intros Hne HK. unfold load_api_keys. cbv zeta.
  rewrite split_join_sep by (exact Hne || (intros l Hl; apply HK; exact Hl)).
  rewrite api_keys_of_id.
  - destruct keys; [contradiction | reflexivity].
  - intros k Hk. destruct (HK k Hk) as [H1 [H2 _]].
    split; [destruct k; [contradiction | reflexivity] | exact H2].
Qed.

Lemma load_api_keys_join_witness :
  load_api_keys (Some (join_sep COMMA [s2z "k1"; s2z "k2"])) = Some [s2z "k1"; s2z "k2"].
Proof.
  apply load_api_keys_join; [discriminate |].
  intros k [<- | [<- | []]]; (split; [discriminate | split]);
    vm_compute; [reflexivity | | reflexivity |];
    intros [H | [H | []]]; discriminate H.
Defined.

(** With ASCII keys and an ASCII header, [verify_api_key] accepts exactly
    a non-empty header equal to one of the keys and otherwise answers 401
    (as it does for a missing header); it never fails with [TypeError]. *)
Theorem verify_api_key_ascii (keys : list text) (h : text) :
  is_ascii h = true -> (forall k, In k keys -> is_ascii k = true) ->
  verify_api_key keys None = Unauthorized /\
  verify_api_key keys (Some h) =
    (if nonempty h && existsb (text_eqb h) keys then AuthOk else Unauthorized) /\
  (verify_api_key keys (Some h) = AuthOk <-> h <> [] /\ In h keys).
Proof.
  intros Hh Hk.
  assert (E : verify_api_key keys (Some h) =
              (if nonempty h && existsb (text_eqb h) keys then AuthOk else Unauthorized)).
  { unfold verify_api_key. destruct (nonempty h); [| reflexivity].
    cbn [andb]. apply check_keys_ascii; assumption. }
  split; [reflexivity | split; [exact E |]].
  rewrite E. destruct h as [| c h']; cbn [nonempty andb].
  - split; [discriminate | intros [H _]; contradiction].
  - destruct (existsb (text_eqb (c :: h')) keys) eqn:Ex.
    + apply existsb_text_eqb in Ex. split; [intros _; split; [discriminate | exact Ex] | reflexivity].
    + split; [discriminate |]. intros [_ Hin].
      apply existsb_text_eqb in Hin. rewrite Hin in Ex. discriminate.
Qed.

Lemma verify_api_key_ascii_witness :
  verify_api_key [s2z "k1"; s2z "k2"] (Some (s2z "k2")) = AuthOk.
Proof.
  assert (Hh : is_ascii (s2z "k2") = true) by reflexivity.
  assert (Hk : forall k, In k [s2z "k1"; s2z "k2"] -> is_ascii k = true)
    by (intros k [<- | [<- | []]]; reflexivity).
  apply (proj2 (proj2 (verify_api_key_ascii _ _ Hh Hk))).
  split; [discriminate | right; left; reflexivity].
Defined.





(** ** normalize_newlines *)

Lemma normalize_cons (c : Z) (s : text) :
  c <> CR -> normalize_newlines (c :: s) = tab_to_space c :: normalize_newlines s.
Proof.
  intros Hc. unfold normalize_newlines, replace_char. cbn [replace_crlf].
  rewrite (not_CR_eqb c Hc). cbn [map]. rewrite (not_CR_eqb c Hc). reflexivity.
Qed.

Lemma normalize_CR_LF (s : text) :
  normalize_newlines (CR :: LF :: s) = LF :: normalize_newlines s.
Proof. reflexivity. Qed.

Lemma normalize_CR (s : text) :
  hd 0 s <> LF -> normalize_newlines (CR :: s) = LF :: normalize_newlines s.
Proof.
  intros Hs. unfold normalize_newlines, replace_char. destruct s as [| d s]; [reflexivity |].
  cbn [hd] in Hs. cbn [replace_crlf]. rewrite Zeqb_refl_true.
  replace (d =? LF) with false by (symmetry; apply Z.eqb_neq; exact Hs).
  reflexivity.
Qed.

Lemma tab_to_space_linebreak (c : Z) : py_is_linebreak (tab_to_space c) = py_is_linebreak c.
Proof. unfold tab_to_space. destruct (Z.eqb_spec c TAB) as [-> | _]; reflexivity. Qed.

Lemma tab_to_space_CR (c : Z) : c <> CR -> tab_to_space c <> CR.
Proof. unfold tab_to_space. destruct (c =? TAB); [discriminate | auto]. Qed.

Lemma splitlines_go_CR_LF (cur s : text) :
  splitlines_go cur (CR :: LF :: s) = rev cur :: splitlines_go [] s.
Proof. reflexivity. Qed.

Lemma splitlines_go_CR (cur : text) (d : Z) (s : text) :
  d <> LF -> splitlines_go cur (CR :: d :: s) = rev cur :: splitlines_go [] (d :: s).
Proof.
  intros Hd. change (splitlines_go cur (CR :: d :: s)) with
    (if CR =? CR then
       (if d =? LF then rev cur :: splitlines_go [] s
        else rev cur :: splitlines_go [] (d :: s))
     else if py_is_linebreak CR then rev cur :: splitlines_go [] (d :: s)
     else splitlines_go (CR :: cur) (d :: s)).
  rewrite Zeqb_refl_true.
  replace (d =? LF) with false by (symmetry; apply Z.eqb_neq; exact Hd). reflexivity.
Qed.

Lemma splitlines_go_other (cur : text) (c : Z) (s : text) :
  c <> CR ->
  splitlines_go cur (c :: s) =
  if py_is_linebreak c then rev cur :: splitlines_go [] s else splitlines_go (c :: cur) s.
Proof.
  intros Hc. change (splitlines_go cur (c :: s)) with
    (if c =? CR then
       match s with
       | d :: s'' => if d =? LF then rev cur :: splitlines_go [] s''
                     else rev cur :: splitlines_go [] s
       | [] => [rev cur]
       end
     else if py_is_linebreak c then rev cur :: splitlines_go [] s
     else splitlines_go (c :: cur) s).
  rewrite (not_CR_eqb c Hc). reflexivity.
Qed.

Lemma splitlines_normalize (s cur : text) :
  splitlines_go (map tab_to_space cur) (normalize_newlines s) =
  map (map tab_to_space) (splitlines_go cur s).
Proof.
  revert cur. induction s as [s IH] using text_len_ind. intros cur.
  destruct s as [| c s'].
  - destruct cur as [| y cur']; [reflexivity |].
    change (normalize_newlines []) with (@nil Z).
    cbn [splitlines_go]. rewrite <- (map_rev tab_to_space (y :: cur')). reflexivity.
  - destruct (Z.eqb_spec c CR) as [-> | Hc].
    + destruct s' as [| d s''].
      * change (normalize_newlines [CR]) with [LF].
        change (splitlines_go cur [CR]) with [rev cur].
        rewrite splitlines_go_other by discriminate. rewrite LF_is_linebreak.
        cbn [map]. rewrite map_rev. reflexivity.
      * destruct (Z.eqb_spec d LF) as [-> | Hd].
        -- rewrite normalize_CR_LF, splitlines_go_CR_LF.
           rewrite splitlines_go_other by discriminate. rewrite LF_is_linebreak.
           cbn [map]. rewrite <- map_rev.
           rewrite <- (IH s'' ltac:(simpl; lia) []). reflexivity.
        -- rewrite normalize_CR by exact Hd. rewrite (splitlines_go_CR cur d s'' Hd).
           rewrite splitlines_go_other by discriminate. rewrite LF_is_linebreak.
           cbn [map]. rewrite <- map_rev.
           rewrite <- (IH (d :: s'') ltac:(simpl; lia) []). reflexivity.
    + rewrite normalize_cons by exact Hc.
      rewrite (splitlines_go_other _ _ _ (tab_to_space_CR c Hc)).
      rewrite (splitlines_go_other cur c s' Hc), tab_to_space_linebreak.
      destruct (py_is_linebreak c).
      * cbn [map]. rewrite <- map_rev.
        rewrite <- (IH s' ltac:(simpl; lia) []). reflexivity.
      * apply (IH s' ltac:(simpl; lia) (c :: cur)).
Qed.

(** [normalize_newlines] leaves no carriage return and no tab, and is
    idempotent. *)
Theorem normalize_newlines_idem (t : text) :
  ~ In CR (normalize_newlines t) /\ ~ In TAB (normalize_newlines t) /\
  normalize_newlines (normalize_newlines t) = normalize_newlines t.
Proof.
  assert (HC : ~ In CR (normalize_newlines t))
    by (intros H; exact (proj1 (normalize_no_CR_TAB t CR H) eq_refl)).
  assert (HT : ~ In TAB (normalize_newlines t))
    by (intros H; exact (proj2 (normalize_no_CR_TAB t TAB H) eq_refl)).
  split; [exact HC | split; [exact HT | apply normalize_id; assumption]].
Qed.

(** [normalize_newlines] keeps the lines of [str.splitlines]: the lines of
    its result are the lines of the input with each tab made a space. *)
Theorem normalize_newlines_lines (t : text) :
  py_splitlines (normalize_newlines t) = map (replace_char TAB SPACE) (py_splitlines t).
Proof. exact (splitlines_normalize t []). Qed.

(** ** strip_and_parse_front_matter *)

Lemma load_front_matter_cases (safe_load : text -> option pyval) (blk : text) :
  load_front_matter safe_load blk = PyDict [] \/
  (exists v, safe_load blk = Some v /\ py_truthy v = true /\ load_front_matter safe_load blk = v).
Proof.
  unfold load_front_matter. destruct (safe_load blk) as [v |]; [| left; reflexivity].
  destruct (py_truthy v) eqn:E; [right; exists v; auto | left; reflexivity].
Qed.

(** The splitter returns either its input unchanged with [{}], or the
    part after a ["\n---\n"] of the input (so never text of its own); an
    input not starting with ["---"] is always returned unchanged.  The
    front matter is [{}] or a truthy value returned by [yaml.safe_load]. *)
Theorem strip_front_matter_shape (safe_load : text -> option pyval) (t : text) :
  (fst (strip_and_parse_front_matter safe_load t) = t /\
   snd (strip_and_parse_front_matter safe_load t) = PyDict [] \/
   exists p, t = p ++ FM_DELIM ++ fst (strip_and_parse_front_matter safe_load t)) /\
  (snd (strip_and_parse_front_matter safe_load t) = PyDict [] \/
   exists blk v, safe_load blk = Some v /\ py_truthy v = true /\
     snd (strip_and_parse_front_matter safe_load t) = v) /\
  (starts_with DASHES t = false ->
   strip_and_parse_front_matter safe_load t = (t, PyDict [])).
Proof.
  unfold strip_and_parse_front_matter.
  destruct (starts_with DASHES t) eqn:Es.
  - destruct (split_once FM_DELIM t) as [[a b] |] eqn:E.
    + cbn [fst snd]. split; [right; exists a; apply split_once_spec; exact E |].
      split; [| discriminate].
      destruct (load_front_matter_cases safe_load (lstrip_chars [45; LF] a))
        as [H | [v [H1 [H2 H3]]]]; [left; exact H |].
      right. exists (lstrip_chars [45; LF] a), v. auto.
    + cbn [fst snd]. split; [left; auto | split; [left; reflexivity | discriminate]].
  - cbn [fst snd]. split; [left; auto | split; [left; reflexivity | reflexivity]].
Qed.

(** ** remove_noise_lines_safe_only *)

Lemma nl_runs_ok_triple (a b : text) (n : nat) :
  nl_runs_ok n (a ++ LF :: LF :: LF :: b) = false.
Proof.
  revert n. induction a as [| c a IH]; intros n.
  - cbn [app nl_runs_ok]. rewrite Zeqb_refl_true.
    destruct (nl_runs_ok (S (S (S n))) b) eqn:E; [| reflexivity].
    apply nl_runs_ok_bound in E. lia.
  - cbn [app nl_runs_ok]. destruct (c =? LF); [apply IH |].
    rewrite IH. apply andb_false_r.
Qed.

Lemma splitlines_filter_pieces (s cur : text) :
  only_LF_breaks s ->
  filter nonempty (splitlines_go cur s) = filter nonempty (pieces_go cur s).
Proof.
  revert cur. induction s as [| c s IH]; intros cur Hs.
  - destruct cur as [| y cur']; [reflexivity |]. reflexivity.
  - assert (Hs' : only_LF_breaks s) by (intros x Hx; apply Hs; right; exact Hx).
    assert (HcCR : c <> CR).
    { intros ->. assert (H := Hs CR (or_introl eq_refl) CR_is_linebreak). discriminate H. }
    rewrite (splitlines_go_other cur c s HcCR). cbn [pieces_go].
    destruct (Z.eqb_spec c LF) as [-> | HcLF].
    + rewrite LF_is_linebreak. cbn [filter]. rewrite IH by exact Hs'. reflexivity.
    + destruct (py_is_linebreak c) eqn:Eb.
      * exfalso. apply HcLF. apply Hs; [left; reflexivity | exact Eb].
      * apply IH. exact Hs'.
Qed.

Lemma clean_lines_filter (m : text -> bool) (L : list text) :
  clean_lines m L =
  filter (fun l => (LONG_LINE <? Z.of_nat (List.length l)) || negb (m l)) (map rstrip L).
Proof.
  induction L as [| raw L IH]; [reflexivity |]. cbn [clean_lines map filter].
  rewrite IH. destruct (LONG_LINE <? Z.of_nat (List.length (rstrip raw))); [reflexivity |].
  destruct (m (rstrip raw)); reflexivity.
Qed.

Lemma filter_filter_andb {A : Type} (f g : A -> bool) (L : list A) :
  filter f (filter g L) = filter (fun x => f x && g x) L.
Proof.
  induction L as [| x L IH]; [reflexivity |]. cbn [filter].
  destruct (g x) eqn:Eg; destruct (f x) eqn:Ef; cbn [filter andb];
    rewrite ?Ef, ?IH; reflexivity.
Qed.

Lemma filter_nonempty_lines (is_noise : text -> bool) (t : text) :
  filter nonempty (py_splitlines (remove_noise_lines_with is_noise t)) =
  filter nonempty (clean_lines is_noise (py_splitlines (normalize_newlines t))).
Proof.
  unfold py_splitlines at 1.
  rewrite splitlines_filter_pieces by apply output_only_LF_breaks.
  unfold remove_noise_lines_with, collapse_blank_lines. cbv zeta.
  rewrite (collapse_nonempty_pieces _ 0 []). cbn [repeat app].
  set (K := clean_lines is_noise (py_splitlines (normalize_newlines t))).
  destruct K as [| l K'] eqn:EK; [reflexivity |].
  rewrite pieces_join; [reflexivity | discriminate |].
  intros l' Hl'. apply (kept_no_LF is_noise t). fold K. rewrite EK. exact Hl'.
Qed.

(** The filter's output has no carriage return and no tab, breaks lines
    only with ["\n"], and never holds three newlines in a row. *)
Theorem remove_noise_output_form (t : text) :
  ~ In CR (remove_noise_lines_safe_only t) /\ ~ In TAB (remove_noise_lines_safe_only t) /\
  only_LF_breaks (remove_noise_lines_safe_only t) /\
  ~ (exists a b, remove_noise_lines_safe_only t = a ++ LF :: LF :: LF :: b).
Proof.
  split; [apply output_no_CR |]. split; [apply output_no_TAB |].
  split; [apply output_only_LF_breaks |].
  intros [a [b E]].
  assert (H : nl_runs_ok 0 (remove_noise_lines_safe_only t) = true)
    by apply collapse_nl_runs_ok.
  rewrite E, nl_runs_ok_triple in H. discriminate H.
Qed.

(** The non-blank lines of the filter's output are exactly the
    right-stripped input lines (after tab and carriage-return
    normalisation) that are non-blank and either longer than 5000
    characters or match no noise pattern, in their input order. *)
Theorem remove_noise_kept_lines (t : text) :
  filter nonempty (py_splitlines (remove_noise_lines_safe_only t)) =
  filter (fun l => nonempty l &&
                   ((LONG_LINE <? Z.of_nat (List.length l)) || negb (safe_noise_line l)))
    (map rstrip (py_splitlines (normalize_newlines t))).
Proof.
  unfold remove_noise_lines_safe_only.
  rewrite filter_nonempty_lines, clean_lines_filter. apply filter_filter_andb.
Qed.

(** ** collapse_newlines_to_spaces *)

Lemma filter_rev_comm {A : Type} (f : A -> bool) (l : list A) :
  filter f (rev l) = rev (filter f l).
Proof.
  induction l as [| x l IH]; [reflexivity |]. cbn [rev filter].
  rewrite filter_app, IH. cbn [filter]. destruct (f x); [reflexivity | apply app_nil_r].
Qed.

Lemma filter_all_space (l : text) :
  (forall c, In c l -> py_isspace c = true) -> filter not_space l = [].
Proof.
  induction l as [| c l IH]; intros H; [reflexivity |]. cbn [filter].
  unfold not_space at 1. rewrite (H c (or_introl eq_refl)). cbn [negb].
  apply IH. intros x Hx. apply H. right. exact Hx.
Qed.

Lemma sub_ws_runs_content (flush : text -> text) (s buf : text) :
  (forall b, (forall c, In c b -> py_isspace c = true) ->
             forall c, In c (flush b) -> py_isspace c = true) ->
  (forall c, In c buf -> py_isspace c = true) ->
  filter not_space (sub_ws_runs flush buf s) = filter not_space s.
Proof.
  intros Hf. revert buf. induction s as [| x s IH]; intros buf Hbuf.
  - cbn [sub_ws_runs]. apply filter_all_space, Hf, Hbuf.
  - cbn [sub_ws_runs filter]. unfold not_space at 2.
    destruct (py_isspace x) eqn:Ex; cbn [negb].
    + apply IH. intros c [<- | Hc]; [exact Ex | apply Hbuf; exact Hc].
    + rewrite filter_app, (filter_all_space _ (Hf buf Hbuf)). cbn [app filter].
      unfold not_space at 1. rewrite Ex. cbn [negb]. f_equal.
      apply IH. intros c [].
Qed.

Lemma flush_nl_run_space (b : text) :
  (forall c, In c b -> py_isspace c = true) ->
  forall c, In c (flush_nl_run b) -> py_isspace c = true.
Proof.
  intros Hb c. unfold flush_nl_run. destruct (existsb (Z.eqb LF) b).
  - intros [<- | []]. reflexivity.
  - intros Hc. apply Hb. apply (proj1 (in_rev_iff _ _)). exact Hc.
Qed.

Lemma flush_long_run_space (b : text) :
  (forall c, In c b -> py_isspace c = true) ->
  forall c, In c (flush_long_run b) -> py_isspace c = true.
Proof.
  intros Hb c. unfold flush_long_run. destruct (2 <=? List.length b)%nat.
  - intros [<- | []]. reflexivity.
  - intros Hc. apply Hb. apply (proj1 (in_rev_iff _ _)). exact Hc.
Qed.

Lemma lstrip_ws_content (s : text) : filter not_space (lstrip_ws s) = filter not_space s.
Proof.
  induction s as [| c s IH]; [reflexivity |]. cbn [lstrip_ws filter].
  destruct (py_isspace c) eqn:E; cbn [negb].
  - unfold not_space at 2. rewrite E. exact IH.
  - cbn [filter]. unfold not_space. rewrite E. reflexivity.
Qed.

Lemma py_strip_content (s : text) : filter not_space (py_strip s) = filter not_space s.
Proof.
  unfold py_strip, rstrip.
  rewrite filter_rev_comm, lstrip_ws_content, filter_rev_comm, rev_involutive.
  apply lstrip_ws_content.
Qed.

Lemma lstrip_fixed_head (c : Z) (r : text) :
  lstrip_ws (c :: r) = c :: r -> py_isspace c = false.
Proof.
  cbn [lstrip_ws]. destruct (py_isspace c); [| reflexivity].
  intros E. pose proof (lstrip_ws_length r) as H. rewrite E in H. cbn in H. lia.
Qed.

(** The collapser keeps every non-whitespace character, in order: only
    whitespace is removed or replaced. *)
Theorem collapse_keeps_content (s : text) :
  filter not_space (collapse_newlines_to_spaces s) = filter not_space s.
Proof.
  unfold collapse_newlines_to_spaces. cbv zeta.
  rewrite py_strip_content.
  rewrite (sub_ws_runs_content flush_long_run _ [] flush_long_run_space (fun c H => match H with end)).
  exact (sub_ws_runs_content flush_nl_run _ [] flush_nl_run_space (fun c H => match H with end)).
Qed.

(** The collapser's output neither starts nor ends with whitespace and
    has no two adjacent whitespace characters of any kind. *)
Theorem collapse_whitespace_form (s : text) :
  (forall c r, collapse_newlines_to_spaces s = c :: r -> py_isspace c = false) /\
  (forall r c, collapse_newlines_to_spaces s = r ++ [c] -> py_isspace c = false) /\
  (forall a b x y, collapse_newlines_to_spaces s = a ++ x :: y :: b ->
     py_isspace x = false \/ py_isspace y = false).
Proof.
  unfold collapse_newlines_to_spaces. cbv zeta.
  set (w := sub_ws_runs flush_long_run [] (sub_ws_runs flush_nl_run [] s)).
  split; [| split].
  - intros c r E. apply (lstrip_fixed_head c r). rewrite <- E. apply lstrip_ws_strip.
  - intros r c E. apply (lstrip_fixed_head c (rev r)).
    assert (H : rstrip (py_strip w) = py_strip w) by (unfold py_strip; apply rstrip_idem).
    unfold rstrip in H. rewrite E in H. rewrite rev_app_distr in H. cbn [rev app] in H.
    rewrite <- (rev_involutive (lstrip_ws (c :: rev r))), H, rev_app_distr.
    reflexivity.
  - intros a b x y E.
    assert (H : no_double_ws (py_strip w) = true)
      by (apply strip_no_double, sub_long_no_double).
    rewrite E in H. apply no_double_ws_app in H as [_ H]. cbn [no_double_ws] in H.
    destruct (py_isspace x); [| left; reflexivity].
    destruct (py_isspace y); [discriminate H | right; reflexivity].
Qed.

(** ** extract_endpoint *)

Ltac split_matches :=
  repeat match goal with
         | |- context [match ?x with _ => _ end] => destruct x eqn:?
         end.

(** [trim_newlines=true] changes only the [text] of a successful
    response, which becomes the collapse of the text returned with
    [trim_newlines=false]; status, metadata and extraction calls are the
    same. *)
Theorem extract_endpoint_trim extract extract_metadata safe_load url fetch :
  extract_endpoint extract extract_metadata safe_load url true fetch =
  (map_text collapse_newlines_to_spaces
     (fst (extract_endpoint extract extract_metadata safe_load url false fetch)),
   snd (extract_endpoint extract extract_metadata safe_load url false fetch)).
Proof.
  unfold extract_endpoint. destruct fetch as [status html |]; [| reflexivity].
  destruct (negb (is_success status)); [reflexivity |].
  destruct (negb (extracted_empty (extract html first_attempt_opts)));
    cbn [fst snd]; split_matches; reflexivity.
Qed.

(** [extract] is called at most twice: never after a failed fetch, once
    with the fast profile, and a second time (the retry profile) only when
    the first result is empty or [None]. *)
Theorem extract_endpoint_calls extract extract_metadata safe_load url trim_newlines fetch :
  snd (extract_endpoint extract extract_metadata safe_load url trim_newlines fetch) =
  match fetch with
  | RequestError => []
  | Fetched status html =>
      if is_success status then
        if extracted_empty (extract html first_attempt_opts)
        then [first_attempt_opts; retry_opts] else [first_attempt_opts]
      else []
  end.
Proof.
  destruct fetch as [status html |]; [| reflexivity].
  destruct (is_success status) eqn:Es.
  - apply endpoint_calls. exact Es.
  - unfold extract_endpoint. rewrite Es. reflexivity.
Qed.

(** The endpoint's HTTP errors are exactly: 504 for a request error, the
    upstream status for a non-2xx answer, and 422 when both extraction
    attempts are empty. *)
Theorem extract_endpoint_errors extract extract_metadata safe_load url trim_newlines
  fetch (code : Z) :
  fst (extract_endpoint extract extract_metadata safe_load url trim_newlines fetch) =
    HTTPError code ->
  (fetch = RequestError /\ code = 504) \/
  (exists html, fetch = Fetched code html /\ is_success code = false) \/
  (code = 422 /\ exists status html, fetch = Fetched status html /\
     is_success status = true /\
     extracted_empty (extract html first_attempt_opts) = true /\
     extracted_empty (extract html retry_opts) = true).
Proof.
  intros H. destruct fetch as [status html |].
  2: { left. injection H as <-. split; reflexivity. }
  unfold extract_endpoint in H. destruct (is_success status) eqn:Es; cbn [negb] in H.
  2: { right; left. injection H as <-. exists html. split; [reflexivity | exact Es]. }
  right; right.
  destruct (extracted_empty (extract html first_attempt_opts)) eqn:E1;
    cbn [negb fst snd] in H.
  - destruct (extract html retry_opts) as [t |] eqn:Er.
    + destruct (Nat.eqb_spec (List.length t) 0) as [Hl | Hl].
      * injection H as <-. split; [reflexivity |].
        exists status, html. split; [reflexivity | split; [exact Es | split; [exact E1 |]]].
        rewrite Er. cbn [extracted_empty]. rewrite Hl. reflexivity.
      * destruct (strip_and_parse_front_matter safe_load t) as [t1 fm].
        cbv zeta in H.
        match type of H with
        | context [merge_meta ?m ?f] => destruct (merge_meta m f) as [[[ti pa] si] |]
        end; discriminate H.
    + injection H as <-. split; [reflexivity |].
      exists status, html. split; [reflexivity | split; [exact Es | split; [exact E1 |]]].
      rewrite Er. reflexivity.
  - exfalso. destruct (extract html first_attempt_opts) as [t |] eqn:Ef; [| discriminate E1].
    cbn [extracted_empty] in E1. destruct (Nat.eqb_spec (List.length t) 0) as [Hl | Hl];
      [first [discriminate E1 | rewrite Hl in E1; discriminate E1] |].
    destruct (strip_and_parse_front_matter safe_load t) as [t1 fm].
    cbv zeta in H.
    match type of H with
    | context [merge_meta ?m ?f] => destruct (merge_meta m f) as [[[ti pa] si] |]
    end; discriminate H.
Qed.

Lemma extract_endpoint_errors_witness :
  fst (extract_endpoint blank_extractor no_metadata yaml_raises example_url false
         (Fetched 503 example_html)) = HTTPError 503 /\
  is_success 503 = false.
Proof.
  assert (H : fst (extract_endpoint blank_extractor no_metadata yaml_raises example_url
                     false (Fetched 503 example_html)) = HTTPError 503) by reflexivity.
  split; [exact H |].
  destruct (extract_endpoint_errors _ _ _ _ _ _ _ H)
    as [[E _] | [[html [E Hs]] | [E _]]]; [discriminate E | exact Hs | discriminate E].
Defined.


